(** * accessgrid/client.py: a shallow embedding of the AccessGrid Python SDK

    The development follows the source file top-down:

    - [Text]: Python [str] and [bytes] values, UTF-8, hexadecimal and base64
      (what [str.encode], [bytes.decode], [hexdigest] and [base64.b64encode]
      compute);
    - [SHA256], [HMAC]: the hash behind [hashlib.sha256] and [hmac.new];
    - [Json]: the values the client serialises and receives, and
      [json.dumps] with its default arguments;
    - [Http]: the call to [requests.request], the response object, the log
      of calls made;
    - [Py]: exceptions and the state-and-exception monad the methods run in;
    - [AccessGrid], [AccessCard], [Template], [AccessCards], [Console]: the
      classes of client.py, method by method;
    - the notions the statements use ([sent_by], [signed_for], [settle],
      [perform], [built], ...) and a sample account with a scripted service.

    The lemmas and theorems come after the definitions: known answers of the
    hash and the encoders, the run of [_make_request], and the properties of
    the signature, the resource clients, the constructor and the response
    classification; then the whole run of an operation (X1 to X6), the shape
    of the signature and of the requests (X8 to X12) and what the entities
    read (X13, X14). *)

From Stdlib Require Import String DecimalString NArith ZArith Bool List Lia.
From Stdlib.Strings Require Import Byte.
Import ListNotations.

Set Implicit Arguments.

(* ================================================================= *)
(** ** Text and bytes *)

Module Text.

(** A Python [str] is a sequence of code points; [bytes] a sequence of
    octets. *)
Definition codepoint := N.
Definition str := list codepoint.
Definition bytes := list byte.

Definition byte_of_N (n : N) : byte :=
  match Byte.of_N (n mod 256) with
  | Some b => b
  | None => x00
  end.

(** A literal of the source: the code points of its (ASCII) characters. *)
Definition lit (s : string) : str := map Byte.to_N (list_byte_of_string s).

(** [str.encode()]: UTF-8.  A surrogate code point cannot be encoded (Python
    raises UnicodeEncodeError); a number past U+10FFFF is no code point. *)
Definition utf8_encode_cp (c : codepoint) : option bytes :=
  if (c <? 0x80)%N then Some [byte_of_N c]
  else if (c <? 0x800)%N then
    Some [byte_of_N (N.lor 0xC0 (N.shiftr c 6));
          byte_of_N (N.lor 0x80 (N.land c 0x3F))]
  else if ((0xD800 <=? c) && (c <=? 0xDFFF))%N then None
  else if (c <? 0x10000)%N then
    Some [byte_of_N (N.lor 0xE0 (N.shiftr c 12));
          byte_of_N (N.lor 0x80 (N.land (N.shiftr c 6) 0x3F));
          byte_of_N (N.lor 0x80 (N.land c 0x3F))]
  else if (c <? 0x110000)%N then
    Some [byte_of_N (N.lor 0xF0 (N.shiftr c 18));
          byte_of_N (N.lor 0x80 (N.land (N.shiftr c 12) 0x3F));
          byte_of_N (N.lor 0x80 (N.land (N.shiftr c 6) 0x3F));
          byte_of_N (N.lor 0x80 (N.land c 0x3F))]
  else None.

Fixpoint encode (s : str) : option bytes :=
  match s with
  | [] => Some []
  | c :: s' =>
      match utf8_encode_cp c, encode s' with
      | Some b, Some bs => Some (b ++ bs)
      | _, _ => None
      end
  end.

(** [bytes.decode()]: strict UTF-8 (no overlong form, no surrogate, nothing
    past U+10FFFF); [None] is UnicodeDecodeError. *)
Definition is_cont (b : byte) : bool :=
  ((0x80 <=? Byte.to_N b) && (Byte.to_N b <? 0xC0))%N.

Definition cont_bits (b : byte) : N := N.land (Byte.to_N b) 0x3F.

Fixpoint decode (bs : bytes) : option str :=
  match bs with
  | [] => Some []
  | b0 :: r0 =>
      let n0 := Byte.to_N b0 in
      if (n0 <? 0x80)%N then option_map (cons n0) (decode r0)
      else if (n0 <? 0xC2)%N then None
      else if (n0 <? 0xE0)%N then
        match r0 with
        | b1 :: r1 =>
            if is_cont b1
            then option_map
                   (cons (N.lor (N.shiftl (N.land n0 0x1F) 6) (cont_bits b1)))
                   (decode r1)
            else None
        | _ => None
        end
      else if (n0 <? 0xF0)%N then
        match r0 with
        | b1 :: b2 :: r2 =>
            let c := N.lor (N.shiftl (N.land n0 0x0F) 12)
                       (N.lor (N.shiftl (cont_bits b1) 6) (cont_bits b2)) in
            if is_cont b1 && is_cont b2 && (0x800 <=? c)%N
               && negb ((0xD800 <=? c) && (c <=? 0xDFFF))%N
            then option_map (cons c) (decode r2)
            else None
        | _ => None
        end
      else if (n0 <? 0xF5)%N then
        match r0 with
        | b1 :: b2 :: b3 :: r3 =>
            let c := N.lor (N.shiftl (N.land n0 0x07) 18)
                       (N.lor (N.shiftl (cont_bits b1) 12)
                          (N.lor (N.shiftl (cont_bits b2) 6) (cont_bits b3))) in
            if is_cont b1 && is_cont b2 && is_cont b3
               && (0x10000 <=? c)%N && (c <? 0x110000)%N
            then option_map (cons c) (decode r3)
            else None
        | _ => None
        end
      else None
  end.

(** [hexdigest]: two lowercase hexadecimal digits per octet. *)
Definition hex_digit (n : N) : codepoint :=
  if (n <? 10)%N then (48 + n)%N else (87 + n)%N.

Definition hex_byte (b : byte) : str :=
  [hex_digit (N.shiftr (Byte.to_N b) 4); hex_digit (N.land (Byte.to_N b) 0xF)].

Definition hex (d : bytes) : str := flat_map hex_byte d.

(** [base64.b64encode]: the standard alphabet, [=] padding. *)
Definition b64_alphabet : bytes :=
  list_byte_of_string
    "ABCDEFGHIJKLMNOPQRSTUVWXYZabcdefghijklmnopqrstuvwxyz0123456789+/".

Definition b64_pad : byte := x3d.

Definition b64_char (n : N) : byte := nth (N.to_nat n) b64_alphabet b64_pad.

Fixpoint b64encode (bs : bytes) : bytes :=
  match bs with
  | [] => []
  | [a] =>
      let x := Byte.to_N a in
      [b64_char (N.shiftr x 2); b64_char (N.shiftl (N.land x 3) 4);
       b64_pad; b64_pad]
  | [a; b] =>
      let x := Byte.to_N a in
      let y := Byte.to_N b in
      [b64_char (N.shiftr x 2);
       b64_char (N.lor (N.shiftl (N.land x 3) 4) (N.shiftr y 4));
       b64_char (N.shiftl (N.land y 0xF) 2);
       b64_pad]
  | a :: b :: c :: rest =>
      let x := Byte.to_N a in
      let y := Byte.to_N b in
      let z := Byte.to_N c in
      b64_char (N.shiftr x 2)
      :: b64_char (N.lor (N.shiftl (N.land x 3) 4) (N.shiftr y 4))
      :: b64_char (N.lor (N.shiftl (N.land y 0xF) 2) (N.shiftr z 6))
      :: b64_char (N.land z 0x3F)
      :: b64encode rest
  end.

(** [str.rstrip(chars)] for a one-character [chars]: drop the occurrences of
    [ch] at the end. *)
Fixpoint rstrip (ch : codepoint) (s : str) : str :=
  match s with
  | [] => []
  | c :: s' =>
      match rstrip ch s' with
      | [] => if (c =? ch)%N then [] else [c]
      | t => c :: t
      end
  end.

(** [a == b] on strings, and the value a list of items holds for a key (the
    items of a dict, the headers of a request). *)
Fixpoint str_eqb (a b : str) : bool :=
  match a, b with
  | [], [] => true
  | x :: a', y :: b' => (x =? y)%N && str_eqb a' b'
  | _, _ => false
  end.

Fixpoint assoc {A : Type} (k : str) (items : list (str * A)) : option A :=
  match items with
  | [] => None
  | (k', v) :: rest => if str_eqb k k' then Some v else assoc k rest
  end.

(** [str(n)] of an int: its decimal numeral. *)
Definition decimal (z : Z) : str := lit (NilZero.string_of_int (Z.to_int z)).

End Text.
Export Text.

(* ================================================================= *)
(** ** SHA-256 (FIPS 180-4), as [hashlib.sha256] computes it *)

Module SHA256.

Local Open Scope N_scope.

Definition w32 (x : N) : N := N.land x 0xFFFFFFFF.
Definition add32 (x y : N) : N := w32 (x + y).
Definition rotr (n x : N) : N := N.lor (N.shiftr x n) (w32 (N.shiftl x (32 - n))).
Definition not32 (x : N) : N := N.lxor x 0xFFFFFFFF.

Definition Ch (x y z : N) : N := N.lxor (N.land x y) (N.land (not32 x) z).
Definition Maj (x y z : N) : N :=
  N.lxor (N.lxor (N.land x y) (N.land x z)) (N.land y z).
Definition Sigma0 (x : N) : N := N.lxor (N.lxor (rotr 2 x) (rotr 13 x)) (rotr 22 x).
Definition Sigma1 (x : N) : N := N.lxor (N.lxor (rotr 6 x) (rotr 11 x)) (rotr 25 x).
Definition sigma0 (x : N) : N := N.lxor (N.lxor (rotr 7 x) (rotr 18 x)) (N.shiftr x 3).
Definition sigma1 (x : N) : N := N.lxor (N.lxor (rotr 17 x) (rotr 19 x)) (N.shiftr x 10).

(** The round constants: the first 32 bits of the fractional parts of the
    cube roots of the first 64 primes. *)
Definition K : list N :=
  [1116352408; 1899447441; 3049323471; 3921009573;
   961987163; 1508970993; 2453635748; 2870763221;
   3624381080; 310598401; 607225278; 1426881987;
   1925078388; 2162078206; 2614888103; 3248222580;
   3835390401; 4022224774; 264347078; 604807628;
   770255983; 1249150122; 1555081692; 1996064986;
   2554220882; 2821834349; 2952996808; 3210313671;
   3336571891; 3584528711; 113926993; 338241895;
   666307205; 773529912; 1294757372; 1396182291;
   1695183700; 1986661051; 2177026350; 2456956037;
   2730485921; 2820302411; 3259730800; 3345764771;
   3516065817; 3600352804; 4094571909; 275423344;
   430227734; 506948616; 659060556; 883997877;
   958139571; 1322822218; 1537002063; 1747873779;
   1955562222; 2024104815; 2227730452; 2361852424;
   2428436474; 2756734187; 3204031479; 3329325298].

(** The initial hash value: from the square roots of the first 8 primes. *)
Definition H0 : list N :=
  [1779033703; 3144134277; 1013904242; 2773480762;
   1359893119; 2600822924; 528734635; 1541459225].

Definition block_size : nat := 64.

(** Padding: a 1 bit, zeros, and the bit length as a 64-bit big-endian
    number, up to a multiple of 64 octets. *)
Fixpoint be_bytes (n : nat) (x : N) : bytes :=
  match n with
  | O => []
  | S n' => byte_of_N (N.shiftr x (8 * N.of_nat n')) :: be_bytes n' x
  end.

Definition pad (msg : bytes) : bytes :=
  let len := N.of_nat (length msg) in
  let zeros := N.to_nat ((64 - (len + 9) mod 64) mod 64) in
  msg ++ x80 :: repeat x00 zeros ++ be_bytes 8 (8 * len).

Fixpoint be_words (bs : bytes) : list N :=
  match bs with
  | a :: b :: c :: d :: rest =>
      N.lor (N.shiftl (Byte.to_N a) 24)
        (N.lor (N.shiftl (Byte.to_N b) 16)
           (N.lor (N.shiftl (Byte.to_N c) 8) (Byte.to_N d)))
      :: be_words rest
  | _ => []
  end.

(** The message schedule: [w] holds W_0 .. W_(t-1), sixteen of them at the
    start; each step appends W_t. *)
Fixpoint schedule (steps : nat) (w : list N) : list N :=
  match steps with
  | O => w
  | S steps' =>
      let t := length w in
      let at_ i := nth (t - i) w 0 in
      schedule steps'
        (w ++ [add32 (add32 (sigma1 (at_ 2%nat)) (at_ 7%nat))
                     (add32 (sigma0 (at_ 15%nat)) (at_ 16%nat))])
  end.

Record regs := Regs { ra : N; rb : N; rc : N; rd : N; re : N; rf : N; rg : N; rh : N }.

Definition round (s : regs) (kw : N * N) : regs :=
  let t1 := add32 (add32 (add32 (rh s) (Sigma1 (re s))) (Ch (re s) (rf s) (rg s)))
                  (add32 (fst kw) (snd kw)) in
  let t2 := add32 (Sigma0 (ra s)) (Maj (ra s) (rb s) (rc s)) in
  Regs (add32 t1 t2) (ra s) (rb s) (rc s) (add32 (rd s) t1) (re s) (rf s) (rg s).

Definition regs_of (h : list N) : regs :=
  match h with
  | [a; b; c; d; e; f; g; i] => Regs a b c d e f g i
  | _ => Regs 0 0 0 0 0 0 0 0
  end.

Definition compress (h : list N) (block : bytes) : list N :=
  let w := schedule 48 (be_words block) in
  let s := fold_left round (combine K w) (regs_of h) in
  map (fun p => add32 (fst p) (snd p))
      (combine h [ra s; rb s; rc s; rd s; re s; rf s; rg s; rh s]).

(** The padded message is consumed 64 octets at a time; [fuel] bounds the
    number of blocks. *)
Fixpoint blocks (fuel : nat) (h : list N) (bs : bytes) : list N :=
  match fuel, bs with
  | S fuel', _ :: _ => blocks fuel' (compress h (firstn block_size bs)) (skipn block_size bs)
  | _, _ => h
  end.

Definition sha256 (msg : bytes) : bytes :=
  let p := pad msg in
  flat_map (be_bytes 4) (blocks (length p) H0 p).

End SHA256.

(* ================================================================= *)
(** ** HMAC (RFC 2104), as [hmac.new(key, msg, hashlib.sha256)] computes it *)

Module HMAC.

Definition xor_byte (p : N) (b : byte) : byte := byte_of_N (N.lxor (Byte.to_N b) p).

(** The key block: a key longer than the hash's block is replaced by its
    digest; the result is filled with zeros up to the block size. *)
Definition key_block (key : bytes) : bytes :=
  let k := if (SHA256.block_size <? length key)%nat then SHA256.sha256 key else key in
  k ++ repeat x00 (SHA256.block_size - length k).

Definition hmac_sha256 (key msg : bytes) : bytes :=
  let k := key_block key in
  SHA256.sha256 (map (xor_byte 0x5C) k ++ SHA256.sha256 (map (xor_byte 0x36) k ++ msg)).

End HMAC.

(* ================================================================= *)
(** ** JSON values and [json.dumps] *)

Module Json.

(** The Python values the client handles: what [json.loads] yields and
    [json.dumps] accepts, numbers being integers (floats, and objects that
    [json.dumps] refuses, are outside the embedding).  A dict is kept as its
    items in insertion order, its keys strings. *)
#[local] Set Warnings "-register-all".
Inductive value :=
| PNone
| PBool (b : bool)
| PInt (z : Z)
| PStr (s : str)
| PList (l : list value)
| PDict (d : list (str * value)).

Definition dict := list (str * value).

(** [d.get(k, default)]. *)
Definition get (d : dict) (k : str) (default : value) : value :=
  match assoc k d with
  | Some v => v
  | None => default
  end.

(** [sep.join(parts)]. *)
Fixpoint join (sep : str) (parts : list str) : str :=
  match parts with
  | [] => []
  | [p] => p
  | p :: rest => p ++ sep ++ join sep rest
  end.

Definition hex4 (n : N) : str :=
  [hex_digit (N.land (N.shiftr n 12) 0xF); hex_digit (N.land (N.shiftr n 8) 0xF);
   hex_digit (N.land (N.shiftr n 4) 0xF); hex_digit (N.land n 0xF)].

Definition backslash : codepoint := 0x5C%N.
Definition quote : codepoint := 0x22%N.

(** [json.encoder.encode_basestring_ascii], character by character
    ([ensure_ascii] is on by default): the short escapes, the printable ASCII
    characters as they are, everything else as \uXXXX, a surrogate pair
    past U+FFFF. *)
Definition escape_cp (c : codepoint) : str :=
  if (c =? quote)%N then [backslash; quote]
  else if (c =? backslash)%N then [backslash; backslash]
  else if (c =? 0x08)%N then backslash :: lit "b"
  else if (c =? 0x0C)%N then backslash :: lit "f"
  else if (c =? 0x0A)%N then backslash :: lit "n"
  else if (c =? 0x0D)%N then backslash :: lit "r"
  else if (c =? 0x09)%N then backslash :: lit "t"
  else if ((0x20 <=? c) && (c <=? 0x7E))%N then [c]
  else if (c <? 0x10000)%N then backslash :: lit "u" ++ hex4 c
  else
    let v := (c - 0x10000)%N in
    backslash :: lit "u" ++ hex4 (N.lor 0xD800 (N.land (N.shiftr v 10) 0x3FF))
    ++ backslash :: lit "u" ++ hex4 (N.lor 0xDC00 (N.land v 0x3FF)).

Definition encode_basestring_ascii (s : str) : str :=
  quote :: flat_map escape_cp s ++ [quote].

(** [json.dumps(v)] with the default arguments: separators [", "] and
    [": "], keys in the dict's order.  This is the text [json.dumps] returns
    when it returns; it raises instead on an int of more than 4300 digits and
    on nesting beyond the recursion limit (see [serialisable], below). *)
Fixpoint dumps (v : value) : str :=
  match v with
  | PNone => lit "null"
  | PBool true => lit "true"
  | PBool false => lit "false"
  | PInt z => decimal z
  | PStr s => encode_basestring_ascii s
  | PList l => lit "[" ++ join (lit ", ") (map dumps l) ++ lit "]"
  | PDict d =>
      lit "{"
      ++ join (lit ", ")
           (map (fun kv : str * value => let (k, x) := kv in
                           encode_basestring_ascii k ++ lit ": " ++ dumps x) d)
      ++ lit "}"
  end.

End Json.
Export Json.

(* ================================================================= *)
(** ** The HTTP library: [requests] *)

(** The keyword arguments of one call [requests.request(...)]. *)
Module Request.
Record t := Make {
  method : str;
  url : str;
  headers : list (str * str);
  json : option dict;
  params : option dict
}.
End Request.

(** The response object, by the three members client.py reads.  [json] is
    the result of the method [response.json()]: the decoded body, or the
    description of the decoding error it raises (on a body that is no JSON
    document, the empty body included). *)
Module Response.
Record t := Make {
  status_code : Z;
  text : str;
  json : value + str
}.
End Response.

Module Http.

(** What a call to [requests.request] comes back with: a response, or a
    [RequestException] (connection refused, timeout, invalid URL, ...) with
    its description.  Other exceptions that escape the library (a
    UnicodeEncodeError for a header value outside latin-1, say) are outside
    the embedding. *)
Inductive reply :=
| Responded (r : Response.t)
| Failed (description : str).

(** What [requests] guarantees of a response's members: [json()] decodes
    the body, and an empty body holds no JSON document. *)
Definition well_formed (r : Response.t) : Prop :=
  Response.text r = [] -> exists d, Response.json r = inr d.

(** The calls made so far, oldest first. *)
Definition log := list Request.t.

End Http.
Export Http.

(* ================================================================= *)
(** ** Exceptions, and the monad of the methods *)

Module Py.

Inductive exn :=
| ValueError (msg : str)
| AccessGridError (msg : str)
| AuthenticationError (msg : str)   (* a subclass of AccessGridError *)
(* A constructor names the class an exception is raised as, not its bases:
   in Python UnicodeError and JSONDecodeError are ValueErrors too. *)
| RequestException (description : str)
| JSONDecodeError (description : str)
| AttributeError
| UnicodeError.

(** [str(e)]: the message an exception was raised with (the handler of
    [_make_request] asks it of the errors of the HTTP library only). *)
Definition exn_str (e : exn) : str :=
  match e with
  | ValueError m | AccessGridError m | AuthenticationError m => m
  | RequestException d | JSONDecodeError d => d
  | AttributeError | UnicodeError => []
  end.

Inductive outcome (A : Type) :=
| Returns (a : A)
| Raises (e : exn).
Arguments Raises {A} e.

(** A method runs against the log of HTTP calls, extends it, and returns or
    raises. *)
Definition M (A : Type) : Type := log -> outcome A * log.

Definition ret {A} (a : A) : M A := fun w => (Returns a, w).
Definition raise {A} (e : exn) : M A := fun w => (Raises e, w).

Definition bind {A B} (m : M A) (k : A -> M B) : M B :=
  fun w =>
    match m w with
    | (Returns a, w') => k a w'
    | (Raises e, w') => (Raises e, w')
    end.

(** [try: body / except <catches> as e: handler(e)]. *)
Definition try_except {A} (body : M A) (catches : exn -> bool) (handler : exn -> M A)
  : M A :=
  fun w =>
    match body w with
    | (Raises e, w') => if catches e then handler e w' else (Raises e, w')
    | r => r
    end.

(** A [str] method that fails with UnicodeError (encode, decode). *)
Definition unicode {A} (o : option A) : M A :=
  match o with
  | Some a => ret a
  | None => raise UnicodeError
  end.

(** [v.get(k, default)] on a value: only a dict has the method. *)
Definition py_get (v : value) (k : str) (default : value) : M value :=
  match v with
  | PDict d => ret (get d k default)
  | _ => raise AttributeError
  end.

End Py.
Export Py.

Declare Scope py_scope.
Delimit Scope py_scope with py.
Notation "x <- m ;; k" := (bind m (fun x => k))
  (at level 61, m at next level, right associativity) : py_scope.

(** What the code takes from outside the repository. *)
Record Env := {
  (** [__version__]: the installed package's version, or "unknown". *)
  version : str;
  (** The transport and the remote service: the reply to a call, given the
      calls made before it. *)
  transport : log -> Request.t -> reply;
  (** [str(v)] of a list or a dict. *)
  repr_container : value -> str;
  (** Whether the error of [response.json()] is a
      [requests.exceptions.RequestException] (requests 2.27 and later) or a
      plain [ValueError] of the json module (earlier versions). *)
  json_error_is_request_exception : bool
}.

Local Open Scope py_scope.

(* ================================================================= *)
(** ** class AccessGrid *)

Module AccessGrid.

(** The attributes [__init__] sets.  The two sub-clients, [access_cards]
    and [console], hold nothing but a reference back to the client; they are
    defined after their classes, at the end. *)
Record t := Make {
  account_id : str;
  secret_key : str;
  base_url : str
}.

Definition default_base_url : str := lit "https://api.accessgrid.com".

(** [not s], for an argument that is a string or None. *)
Definition falsy (s : option str) : bool :=
  match s with
  | None | Some [] => true
  | Some (_ :: _) => false
  end.

Definition the (s : option str) : str :=
  match s with
  | Some x => x
  | None => []
  end.

Definition slash : codepoint := 0x2F%N.

(** [base_url] is the optional argument: [None] when the caller leaves it
    out. *)
Definition __init__ (account_id secret_key : option str) (base_url : option str)
  : M t :=
  if falsy account_id then raise (ValueError (lit "Account ID is required"))
  else if falsy secret_key then raise (ValueError (lit "Secret Key is required"))
  else
    ret {| account_id := the account_id;
           secret_key := the secret_key;
           base_url :=
             rstrip slash
               match base_url with
               | Some b => b
               | None => default_base_url
               end |}.

Definition _generate_signature (self : t) (payload : str) : M str :=
  raw <- unicode (encode payload) ;;
  encoded_payload <- unicode (decode (b64encode raw)) ;;
  key <- unicode (encode (secret_key self)) ;;
  msg <- unicode (encode encoded_payload) ;;
  ret (hex (HMAC.hmac_sha256 key msg)).

(** [data if data else None]: an empty dict counts as no data. *)
Definition truthy (data : option dict) : bool :=
  match data with
  | Some (_ :: _) => true
  | _ => false
  end.

Section WithEnv.

Variable E : Env.

(** [requests.request(...)]: the call is logged, the transport answers. *)
Definition request (req : Request.t) : M Response.t :=
  fun sent =>
    match transport E sent req with
    | Responded r => (Returns r, sent ++ [req])
    | Failed d => (Raises (RequestException d), sent ++ [req])
    end.

(** [response.json()]. *)
Definition response_json (r : Response.t) : M value :=
  match Response.json r with
  | inl v => ret v
  | inr d => raise (JSONDecodeError d)
  end.

(** [isinstance(e, requests.exceptions.RequestException)]. *)
Definition is_RequestException (e : exn) : bool :=
  match e with
  | RequestException _ => true
  | JSONDecodeError _ => json_error_is_request_exception E
  | _ => false
  end.

(** [str(v)], as the f-string formats the error message. *)
Definition py_str (v : value) : str :=
  match v with
  | PStr s => s
  | PNone => lit "None"
  | PBool true => lit "True"
  | PBool false => lit "False"
  | PInt z => decimal z
  | PList _ | PDict _ => repr_container E v
  end.

Definition _make_request (self : t) (method endpoint : str)
    (data params : option dict) : M value :=
  let url := base_url self ++ endpoint in
  let payload :=
    if truthy data
    then match data with Some d => dumps (PDict d) | None => [] end
    else [] in
  signature <- _generate_signature self payload ;;
  let headers :=
    [(lit "X-ACCT-ID", account_id self);
     (lit "X-PAYLOAD-SIG", signature);
     (lit "Content-Type", lit "application/json");
     (lit "User-Agent", lit "accessgrid.py @ v" ++ version E)] in
  try_except
    (response <- request
       {| Request.method := method;
          Request.url := url;
          Request.headers := headers;
          Request.json := if truthy data then data else None;
          Request.params := params |} ;;
     if (Response.status_code response =? 401)%Z then
       raise (AuthenticationError (lit "Invalid credentials"))
     else if (Response.status_code response =? 402)%Z then
       raise (AccessGridError (lit "Insufficient account balance"))
     else if negb ((200 <=? Response.status_code response)%Z
                   && (Response.status_code response <? 300)%Z) then
       error_data <-
         match Response.text response with
         | _ :: _ => response_json response
         | [] => ret (PDict [])
         end ;;
       error_message <-
         py_get error_data (lit "message") (PStr (Response.text response)) ;;
       raise (AccessGridError (lit "API request failed: " ++ py_str error_message))
     else response_json response)
    is_RequestException
    (fun e => raise (AccessGridError (lit "Request failed: " ++ exn_str e))).

Definition _get (self : t) (endpoint : str) (params : option dict) : M value :=
  _make_request self (lit "GET") endpoint None params.

Definition _post (self : t) (endpoint : str) (data : dict) : M value :=
  _make_request self (lit "POST") endpoint (Some data) None.

Definition _put (self : t) (endpoint : str) (data : dict) : M value :=
  _make_request self (lit "PUT") endpoint (Some data) None.

Definition _patch (self : t) (endpoint : str) (data : dict) : M value :=
  _make_request self (lit "PATCH") endpoint (Some data) None.

End WithEnv.

End AccessGrid.

(* ================================================================= *)
(** ** class AccessCard, class Template *)

Module AccessCard.

Record t := Make {
  _client : AccessGrid.t;
  id : value;
  url : value;
  state : value;
  full_name : value;
  expiration_date : value
}.

(** Each field is [data.get(key)]: None when the key is absent. *)
Definition __init__ (client : AccessGrid.t) (data : value) : M t :=
  id <- py_get data (lit "id") PNone ;;
  url <- py_get data (lit "install_url") PNone ;;
  state <- py_get data (lit "state") PNone ;;
  full_name <- py_get data (lit "full_name") PNone ;;
  expiration_date <- py_get data (lit "expiration_date") PNone ;;
  ret (Make client id url state full_name expiration_date).

End AccessCard.

Module Template.

Record t := Make {
  _client : AccessGrid.t;
  id : value;
  name : value;
  platform : value;
  use_case : value;
  protocol : value;
  created_at : value;
  last_published_at : value;
  issued_keys_count : value;
  active_keys_count : value;
  allowed_device_counts : value;
  support_settings : value;
  terms_settings : value;
  style_settings : value
}.

Definition __init__ (client : AccessGrid.t) (data : value) : M t :=
  id <- py_get data (lit "id") PNone ;;
  name <- py_get data (lit "name") PNone ;;
  platform <- py_get data (lit "platform") PNone ;;
  use_case <- py_get data (lit "use_case") PNone ;;
  protocol <- py_get data (lit "protocol") PNone ;;
  created_at <- py_get data (lit "created_at") PNone ;;
  last_published_at <- py_get data (lit "last_published_at") PNone ;;
  issued_keys_count <- py_get data (lit "issued_keys_count") PNone ;;
  active_keys_count <- py_get data (lit "active_keys_count") PNone ;;
  allowed_device_counts <- py_get data (lit "allowed_device_counts") PNone ;;
  support_settings <- py_get data (lit "support_settings") PNone ;;
  terms_settings <- py_get data (lit "terms_settings") PNone ;;
  style_settings <- py_get data (lit "style_settings") PNone ;;
  ret (Make client id name platform use_case protocol created_at
         last_published_at issued_keys_count active_keys_count
         allowed_device_counts support_settings terms_settings style_settings).

End Template.

(* ================================================================= *)
(** ** class AccessCards *)

Module AccessCards.

Record t := Make { _client : AccessGrid.t }.

Definition __init__ (client : AccessGrid.t) : t := Make client.

Section WithEnv.

Variable E : Env.

Definition issue (self : t) (kwargs : dict) : M AccessCard.t :=
  response <- AccessGrid._post E (_client self) (lit "/v1/key-cards") kwargs ;;
  AccessCard.__init__ (_client self) response.

Definition provision (self : t) (kwargs : dict) : M AccessCard.t :=
  issue self kwargs.

Definition update (self : t) (card_id : str) (kwargs : dict) : M AccessCard.t :=
  response <-
    AccessGrid._put E (_client self) (lit "/v1/key-cards/" ++ card_id) kwargs ;;
  AccessCard.__init__ (_client self) response.

Definition manage (self : t) (card_id action : str) : M AccessCard.t :=
  response <-
    AccessGrid._post E (_client self)
      (lit "/v1/key-cards/" ++ card_id ++ lit "/" ++ action) [] ;;
  AccessCard.__init__ (_client self) response.

Definition suspend (self : t) (card_id : str) : M AccessCard.t :=
  manage self card_id (lit "suspend").

Definition resume (self : t) (card_id : str) : M AccessCard.t :=
  manage self card_id (lit "resume").

Definition unlink (self : t) (card_id : str) : M AccessCard.t :=
  manage self card_id (lit "unlink").

End WithEnv.

End AccessCards.

(* ================================================================= *)
(** ** class Console *)

Module Console.

Record t := Make { _client : AccessGrid.t }.

Definition __init__ (client : AccessGrid.t) : t := Make client.

Section WithEnv.

Variable E : Env.

Definition create_template (self : t) (kwargs : dict) : M Template.t :=
  response <-
    AccessGrid._post E (_client self) (lit "/v1/console/card-templates") kwargs ;;
  Template.__init__ (_client self) response.

Definition update_template (self : t) (template_id : str) (kwargs : dict)
  : M Template.t :=
  response <-
    AccessGrid._put E (_client self)
      (lit "/v1/console/card-templates/" ++ template_id) kwargs ;;
  Template.__init__ (_client self) response.

Definition read_template (self : t) (template_id : str) : M Template.t :=
  response <-
    AccessGrid._get E (_client self)
      (lit "/v1/console/card-templates/" ++ template_id) None ;;
  Template.__init__ (_client self) response.

Definition get_logs (self : t) (template_id : str) (kwargs : dict) : M value :=
  AccessGrid._get E (_client self)
    (lit "/v1/console/card-templates/" ++ template_id ++ lit "/logs")
    (Some kwargs).

End WithEnv.

End Console.

(** The attributes [self.access_cards] and [self.console] of a client. *)
Definition access_cards (self : AccessGrid.t) : AccessCards.t :=
  AccessCards.__init__ self.

Definition console (self : AccessGrid.t) : Console.t :=
  Console.__init__ self.

(* ================================================================= *)
(** ** Notions the statements use *)

(** The calls to [requests.request] a method adds to the log, and what it
    returns or raises. *)
Definition sent_by {A} (m : M A) (w : log) : list Request.t :=
  skipn (length w) (snd (m w)).

Definition result_of {A} (m : M A) (w : log) : outcome A := fst (m w).

Definition header (name : str) (req : Request.t) : option str :=
  assoc name (Request.headers req).

(** Lowercase hexadecimal digits: 0-9, a-f. *)
Definition is_lower_hex (c : codepoint) : bool :=
  ((48 <=? c) && (c <=? 57) || (97 <=? c) && (c <=? 102))%N.

(** The signature the server expects: the lowercase hexadecimal HMAC-SHA256,
    under the key, of the base64 text of the payload's octets. *)
Definition signature (key raw : bytes) : str :=
  hex (HMAC.hmac_sha256 key (b64encode raw)).

(** The JSON text of a request's body; the empty string without a body. *)
Definition body_text (body : option dict) : str :=
  match body with
  | Some d => dumps (PDict d)
  | None => []
  end.


(** [payload] and the [json] argument of [_make_request], as functions of
    [data]. *)
Definition payload_of (data : option dict) : str :=
  if AccessGrid.truthy data then body_text data else [].

Definition body_of (data : option dict) : option dict :=
  if AccessGrid.truthy data then data else None.

(** The request [_make_request] hands to [requests.request], given the
    octets of the secret key and of the payload. *)
Definition prepared (E : Env) (self : AccessGrid.t) (method endpoint : str)
    (data params : option dict) (key raw : bytes) : Request.t :=
  {| Request.method := method;
     Request.url := AccessGrid.base_url self ++ endpoint;
     Request.headers :=
       [(lit "X-ACCT-ID", AccessGrid.account_id self);
        (lit "X-PAYLOAD-SIG", signature key raw);
        (lit "Content-Type", lit "application/json");
        (lit "User-Agent", lit "accessgrid.py @ v" ++ version E)];
     Request.json := body_of data;
     Request.params := params |}.

(** What becomes of the error of [response.json()] inside the [try]. *)
Definition json_failure (E : Env) (A : Type) (d : str) : outcome A :=
  if json_error_is_request_exception E
  then Raises (AccessGridError (lit "Request failed: " ++ d))
  else Raises (JSONDecodeError d).

(** The outcome of [_make_request] for each reply of the transport. *)
Definition settle (E : Env) (rep : reply) : outcome value :=
  match rep with
  | Failed d => Raises (AccessGridError (lit "Request failed: " ++ d))
  | Responded r =>
      if (Response.status_code r =? 401)%Z then
        Raises (AuthenticationError (lit "Invalid credentials"))
      else if (Response.status_code r =? 402)%Z then
        Raises (AccessGridError (lit "Insufficient account balance"))
      else if negb ((200 <=? Response.status_code r)%Z
                    && (Response.status_code r <? 300)%Z) then
        match Response.text r, Response.json r with
        | [], _ => Raises (AccessGridError (lit "API request failed: "))
        | _ :: _, inl (PDict d) =>
            Raises (AccessGridError
                      (lit "API request failed: "
                       ++ AccessGrid.py_str E
                            (get d (lit "message") (PStr (Response.text r)))))
        | _ :: _, inl _ => Raises AttributeError
        | _ :: _, inr d => json_failure E value d
        end
      else
        match Response.json r with
        | inl v => Returns v
        | inr d => json_failure E value d
        end
  end.

(** The public operations of the two sub-clients, and a caller that makes
    a series of them through one client, going on after an error. *)
Inductive call :=
| Issue (kwargs : dict)
| Provision (kwargs : dict)
| Update (card_id : str) (kwargs : dict)
| Manage (card_id action : str)
| Suspend (card_id : str)
| Resume (card_id : str)
| Unlink (card_id : str)
| CreateTemplate (kwargs : dict)
| UpdateTemplate (template_id : str) (kwargs : dict)
| ReadTemplate (template_id : str)
| GetLogs (template_id : str) (kwargs : dict).

Inductive result :=
| Card (c : AccessCard.t)
| Templ (t : Template.t)
| Raw (v : value).

Definition fmap {A B} (f : A -> B) (m : M A) : M B := x <- m ;; ret (f x).

Definition perform (E : Env) (self : AccessGrid.t) (op : call) : M result :=
  match op with
  | Issue kw => fmap Card (AccessCards.issue E (access_cards self) kw)
  | Provision kw => fmap Card (AccessCards.provision E (access_cards self) kw)
  | Update i kw => fmap Card (AccessCards.update E (access_cards self) i kw)
  | Manage i a => fmap Card (AccessCards.manage E (access_cards self) i a)
  | Suspend i => fmap Card (AccessCards.suspend E (access_cards self) i)
  | Resume i => fmap Card (AccessCards.resume E (access_cards self) i)
  | Unlink i => fmap Card (AccessCards.unlink E (access_cards self) i)
  | CreateTemplate kw => fmap Templ (Console.create_template E (console self) kw)
  | UpdateTemplate i kw => fmap Templ (Console.update_template E (console self) i kw)
  | ReadTemplate i => fmap Templ (Console.read_template E (console self) i)
  | GetLogs i kw => fmap Raw (Console.get_logs E (console self) i kw)
  end.

Fixpoint session (E : Env) (self : AccessGrid.t) (ops : list call) (w : log)
  : list (outcome result) * log :=
  match ops with
  | [] => ([], w)
  | op :: rest =>
      let (o, w') := perform E self op w in
      let (os, w'') := session E self rest w' in
      (o :: os, w'')
  end.

(** The HTTP API surface: the method, path, body and query parameters of
    each operation, and the entity its response is wrapped in. *)
Definition method_of (op : call) : str :=
  match op with
  | Issue _ | Provision _ | Manage _ _ | Suspend _ | Resume _ | Unlink _
  | CreateTemplate _ => lit "POST"
  | Update _ _ | UpdateTemplate _ _ => lit "PUT"
  | ReadTemplate _ | GetLogs _ _ => lit "GET"
  end.

Definition endpoint_of (op : call) : str :=
  match op with
  | Issue _ | Provision _ => lit "/v1/key-cards"
  | Update i _ => lit "/v1/key-cards/" ++ i
  | Manage i a => lit "/v1/key-cards/" ++ i ++ lit "/" ++ a
  | Suspend i => lit "/v1/key-cards/" ++ i ++ lit "/suspend"
  | Resume i => lit "/v1/key-cards/" ++ i ++ lit "/resume"
  | Unlink i => lit "/v1/key-cards/" ++ i ++ lit "/unlink"
  | CreateTemplate _ => lit "/v1/console/card-templates"
  | UpdateTemplate i _ | ReadTemplate i => lit "/v1/console/card-templates/" ++ i
  | GetLogs i _ => lit "/v1/console/card-templates/" ++ i ++ lit "/logs"
  end.

Definition data_of (op : call) : option dict :=
  match op with
  | Issue kw | Provision kw | Update _ kw | CreateTemplate kw
  | UpdateTemplate _ kw => Some kw
  | Manage _ _ | Suspend _ | Resume _ | Unlink _ => Some []
  | ReadTemplate _ | GetLogs _ _ => None
  end.

Definition params_of (op : call) : option dict :=
  match op with
  | GetLogs _ kw => Some kw
  | _ => None
  end.

Definition wrap (self : AccessGrid.t) (op : call) (response : value) : M result :=
  match op with
  | Issue _ | Provision _ | Update _ _ | Manage _ _ | Suspend _ | Resume _
  | Unlink _ => fmap Card (AccessCard.__init__ self response)
  | CreateTemplate _ | UpdateTemplate _ _ | ReadTemplate _ =>
      fmap Templ (Template.__init__ self response)
  | GetLogs _ _ => ret (Raw response)
  end.

(** The request an operation makes, given the octets of the secret key. *)
Definition request_of (E : Env) (self : AccessGrid.t) (op : call) (key : bytes)
  : Request.t :=
  prepared E self (method_of op) (endpoint_of op) (data_of op) (params_of op) key
    (map byte_of_N (payload_of (data_of op))).

(** The call of a card state transition: a POST to the action's sub-path,
    without a body, signed over the empty payload. *)
Definition transition_request (E : Env) (self : AccessGrid.t)
    (card_id action : str) (key : bytes) : Request.t :=
  {| Request.method := lit "POST";
     Request.url :=
       AccessGrid.base_url self ++ lit "/v1/key-cards/" ++ card_id ++ lit "/" ++ action;
     Request.headers :=
       [(lit "X-ACCT-ID", AccessGrid.account_id self);
        (lit "X-PAYLOAD-SIG", hex (HMAC.hmac_sha256 key (b64encode [])));
        (lit "Content-Type", lit "application/json");
        (lit "User-Agent", lit "accessgrid.py @ v" ++ version E)];
     Request.json := None;
     Request.params := None |}.

(** A method that makes no call. *)
Definition silent {A} (m : M A) : Prop := forall w, m w = (fst (m w), w).

(** A string ends with [ch]. *)
Definition ends_with (ch : codepoint) (s : str) : Prop :=
  exists s', s = s' ++ [ch].

(** [prefix] starts [s]. *)
Definition starts_with (prefix s : str) : Prop :=
  exists rest, s = prefix ++ rest.

(** A literal of JSON text written with an apostrophe for each double
    quote. *)
Definition dq (s : str) : str :=
  map (fun c => if (c =? 0x27)%N then quote else c) s.

(** ASCII text and octets. *)
Definition is_ascii (s : str) : bool := forallb (fun c => (c <? 0x80)%N) s.
Definition ascii_bytes (bs : bytes) : bool :=
  forallb (fun b => (Byte.to_N b <? 0x80)%N) bs.


(* ================================================================= *)
(** ** A sample account and a scripted service, for the examples *)

Module Sample.

Definition client : AccessGrid.t :=
  AccessGrid.Make (lit "acct_1") (lit "s3cret") (lit "https://api.accessgrid.com").

(** A service that answers every call with the same response. *)
Definition env (json_errors_wrapped : bool) (r : Response.t) : Env :=
  {| version := lit "unknown";
     transport := fun _ _ => Responded r;
     repr_container := fun _ => lit "<container>";
     json_error_is_request_exception := json_errors_wrapped |}.

(** A response whose body is the JSON text of [v]. *)
Definition json_response (status : Z) (v : value) : Response.t :=
  Response.Make status (dumps v) (inl v).

(** A response whose body is no JSON document. *)
Definition text_response (status : Z) (body : str) : Response.t :=
  Response.Make status body (inr (lit "Expecting value: line 1 column 1 (char 0)")).

Definition card : value :=
  PDict [(lit "id", PStr (lit "key_1")); (lit "state", PStr (lit "active"))].

Definition jane_doe : dict :=
  [(lit "full_name", PStr (lit "Jane Doe"));
   (lit "expiration_date", PStr (lit "2026-01-01"))].

End Sample.

(* ================================================================= *)
(** ** Further notions: the whole run of an operation *)

(** What an operation makes of the decoded response: the entity built from
    it, the value itself for [get_logs], or the error of the constructor. *)
Definition built (self : AccessGrid.t) (op : call) (response : value)
  : outcome result :=
  fst (wrap self op response []).

(** Code points that are surrogates, and the numbers that are code points
    of a Python string. *)
Definition is_surrogate (c : codepoint) : bool :=
  ((0xD800 <=? c) && (c <=? 0xDFFF))%N.

Definition has_surrogate (s : str) : bool := existsb is_surrogate s.

Definition python_str (s : str) : Prop := Forall (fun c => (c < 0x110000)%N) s.

(** The keys the two entities read. *)
Definition card_keys : list str :=
  [lit "id"; lit "install_url"; lit "state"; lit "full_name"; lit "expiration_date"].

Definition template_keys : list str :=
  [lit "id"; lit "name"; lit "platform"; lit "use_case"; lit "protocol";
   lit "created_at"; lit "last_published_at"; lit "issued_keys_count";
   lit "active_keys_count"; lit "allowed_device_counts"; lit "support_settings";
   lit "terms_settings"; lit "style_settings"].

(** A transport that fails on every call, with the description [d]. *)
Definition offline (d : str) : Env :=
  {| version := lit "unknown";
     transport := fun _ _ => Failed d;
     repr_container := fun _ => lit "<container>";
     json_error_is_request_exception := true |}.

(** The entities as built from a mapping. *)
Definition card_of (self : AccessGrid.t) (d : dict) : AccessCard.t :=
  {| AccessCard._client := self;
     AccessCard.id := get d (lit "id") PNone;
     AccessCard.url := get d (lit "install_url") PNone;
     AccessCard.state := get d (lit "state") PNone;
     AccessCard.full_name := get d (lit "full_name") PNone;
     AccessCard.expiration_date := get d (lit "expiration_date") PNone |}.

Definition template_of (self : AccessGrid.t) (d : dict) : Template.t :=
  {| Template._client := self;
     Template.id := get d (lit "id") PNone;
     Template.name := get d (lit "name") PNone;
     Template.platform := get d (lit "platform") PNone;
     Template.use_case := get d (lit "use_case") PNone;
     Template.protocol := get d (lit "protocol") PNone;
     Template.created_at := get d (lit "created_at") PNone;
     Template.last_published_at := get d (lit "last_published_at") PNone;
     Template.issued_keys_count := get d (lit "issued_keys_count") PNone;
     Template.active_keys_count := get d (lit "active_keys_count") PNone;
     Template.allowed_device_counts := get d (lit "allowed_device_counts") PNone;
     Template.support_settings := get d (lit "support_settings") PNone;
     Template.terms_settings := get d (lit "terms_settings") PNone;
     Template.style_settings := get d (lit "style_settings") PNone |}.



(** The statuses the client takes for success. *)
Definition success (status : Z) : Prop := (200 <= status < 300)%Z.

(** [json.dumps] does not return on every value: CPython refuses to write an
    int of more than 4300 decimal digits (ValueError, the default of
    sys.int_max_str_digits), and gives up on nesting beyond its recursion
    limit (RecursionError).  [dumps] is the text it returns when it does;
    [serialisable] holds of the values well inside both limits, on which it
    is sure to return. *)
Fixpoint nesting (v : value) : nat :=
  match v with
  | PList l => S (fold_right (fun x m => Nat.max (nesting x) m) 0%nat l)
  | PDict d =>
      S (fold_right
           (fun (kv : str * value) m => let (_, x) := kv in Nat.max (nesting x) m)
           0%nat d)
  | _ => 0%nat
  end.

Fixpoint ints_within (v : value) : bool :=
  match v with
  | PInt z => (Z.abs z <? 10 ^ 4300)%Z
  | PList l => forallb ints_within l
  | PDict d => forallb (fun kv : str * value => let (_, x) := kv in ints_within x) d
  | _ => true
  end.

Definition serialisable (v : value) : bool :=
  ints_within v && (nesting v <=? 100)%nat.

(** The [data] of a request serialises: there is none, or [json.dumps]
    returns on it. *)
Definition serialises (data : option dict) : bool :=
  match data with
  | Some d => serialisable (PDict d)
  | None => true
  end.

(* ================================================================= *)
(** * Lemmas *)

Unset Implicit Arguments.

(** ** Known answers *)

Example sha256_abc :
  hex (SHA256.sha256 (list_byte_of_string "abc"))
  = lit "ba7816bf8f01cfea414140de5dae2223b00361a396177a9cb410ff61f20015ad".
Proof. vm_compute. reflexivity. Qed.

Example sha256_empty :
  hex (SHA256.sha256 [])
  = lit "e3b0c44298fc1c149afbf4c8996fb92427ae41e4649b934ca495991b7852b855".
Proof. vm_compute. reflexivity. Qed.

Example sha256_two_blocks :
  hex (SHA256.sha256
         (list_byte_of_string "abcdbcdecdefdefgefghfghighijhijkijkljklmklmnlmnomnopnopq"))
  = lit "248d6a61d20638b8e5c026930c3e6039a33ce45964ff2167f6ecedd419db06c1".
Proof. vm_compute. reflexivity. Qed.

(** Around the padding's block boundary: 55, 56, 64 and 119 octets. *)
Example sha256_padding_boundaries :
  hex (SHA256.sha256 (repeat x61 55))
  = lit "9f4390f8d30c2dd92ec9f095b65e2b9ae9b0a925a5258e241c9f1e910f734318"
  /\ hex (SHA256.sha256 (repeat x61 56))
     = lit "b35439a4ac6f0948b6d6f9e3c6af0f5f590ce20f1bde7090ef7970686ec6738a"
  /\ hex (SHA256.sha256 (repeat x61 64))
     = lit "ffe054fe7ae0cb6dc65c3af9b61d5209f439851db43d0ba5997337df154668eb"
  /\ hex (SHA256.sha256 (repeat x61 119))
     = lit "31eba51c313a5c08226adf18d4a359cfdfd8d2e816b13f4af952f7ea6584dcfb".
Proof. repeat split; vm_compute; reflexivity. Qed.

(** RFC 4231, test cases 2 and 6. *)
Example hmac_rfc4231_2 :
  hex (HMAC.hmac_sha256 (list_byte_of_string "Jefe")
         (list_byte_of_string "what do ya want for nothing?"))
  = lit "5bdcc146bf60754e6a042426089575c75a003f089d2739839dec58b964ec3843".
Proof. vm_compute. reflexivity. Qed.

Example hmac_rfc4231_6 :
  hex (HMAC.hmac_sha256 (repeat xaa 131)
         (list_byte_of_string "Test Using Larger Than Block-Size Key - Hash Key First"))
  = lit "60e431591ee0b67f0d8a26aacbf5b77f8e0bc6213728c5140546040f0ee37f54".
Proof. vm_compute. reflexivity. Qed.

Example b64encode_sample :
  b64encode (list_byte_of_string "any carnal pleas")
  = list_byte_of_string "YW55IGNhcm5hbCBwbGVhcw==".
Proof. vm_compute. reflexivity. Qed.

Example dumps_sample :
  dumps (PDict [(lit "a", PStr [0x7F; 0xE9; 0x1F600; 0x0A; 0x22; 0x5C; 0x2F]%N);
                (lit "b", PList [PInt 1; PInt (-2); PNone; PBool true; PDict []]);
                (lit "c", PDict [])])
  = dq (lit "{'a': '\u007f\u00e9\ud83d\ude00\n\'\\/', 'b': [1, -2, null, true, {}], 'c': {}}").
Proof. vm_compute. reflexivity. Qed.

Example dumps_jane_doe :
  dumps (PDict Sample.jane_doe)
  = dq (lit "{'full_name': 'Jane Doe', 'expiration_date': '2026-01-01'}").
Proof. vm_compute. reflexivity. Qed.

Example encode_sample :
  option_map (map Byte.to_N) (encode [0xE9; 0x20AC; 0x1F600]%N)
  = Some [195; 169; 226; 130; 172; 240; 159; 152; 128]%N
  /\ encode [0x61; 0xD800]%N = None.
Proof. split; vm_compute; reflexivity. Qed.

Example decode_sample :
  decode [xc3; xa9; xe2; x82; xac; xf4; x8f; xbf; xbf] = Some [0xE9; 0x20AC; 0x10FFFF]%N
  /\ decode [xc0; x80] = None
  /\ decode [xe0; x80; x80] = None
  /\ decode [xed; xa0; x80] = None
  /\ decode [xf0; x80; x80; x80] = None
  /\ decode [xf4; x90; x80; x80] = None
  /\ decode [xc3] = None
  /\ decode [x80] = None.
Proof. repeat split; vm_compute; reflexivity. Qed.

Example rstrip_sample :
  rstrip AccessGrid.slash (lit "https://staging.accessgrid.com/v2//")
  = lit "https://staging.accessgrid.com/v2".
Proof. vm_compute. reflexivity. Qed.

(** ** Octets and ASCII text *)

Lemma byte_of_to_N (b : byte) : byte_of_N (Byte.to_N b) = b.
Proof.
  unfold byte_of_N.
  rewrite N.mod_small by (pose proof (Byte.to_N_bounded b); lia).
  now rewrite Byte.of_to_N.
Qed.

Lemma encode_ascii (s : str) :
  is_ascii s = true -> encode s = Some (map byte_of_N s).
Proof.
  induction s as [|c s IH]; simpl; [reflexivity|].
  intros H. apply andb_true_iff in H as [Hc Hs].
  unfold utf8_encode_cp. rewrite Hc, (IH Hs). reflexivity.
Qed.

Lemma decode_ascii (bs : bytes) :
  ascii_bytes bs = true -> decode bs = Some (map Byte.to_N bs).
Proof.
  induction bs as [|b bs IH]; simpl; [reflexivity|].
  intros H. apply andb_true_iff in H as [Hb Hs].
  rewrite Hb, (IH Hs). reflexivity.
Qed.

Lemma ascii_bytes_text (bs : bytes) :
  ascii_bytes bs = true -> is_ascii (map Byte.to_N bs) = true.
Proof.
  unfold ascii_bytes, is_ascii.
  induction bs as [|b bs IH]; simpl; [reflexivity|].
  intros H. apply andb_true_iff in H as [Hb Hs]. now rewrite Hb, IH.
Qed.

Lemma map_byte_of_to_N (bs : bytes) : map byte_of_N (map Byte.to_N bs) = bs.
Proof.
  rewrite map_map. rewrite <- (map_id bs) at 2.
  apply map_ext. exact byte_of_to_N.
Qed.

Lemma b64_char_ascii (n : N) : (Byte.to_N (b64_char n) <? 0x80)%N = true.
Proof.
  unfold b64_char.
  destruct (nth_in_or_default (N.to_nat n) b64_alphabet b64_pad) as [H|H].
  - assert (A : ascii_bytes b64_alphabet = true) by reflexivity.
    unfold ascii_bytes in A. rewrite forallb_forall in A. now apply A.
  - now rewrite H.
Qed.

Lemma b64encode_ascii (bs : bytes) : ascii_bytes (b64encode bs) = true.
Proof.
  assert (G : forall n bs, (length bs <= n)%nat -> ascii_bytes (b64encode bs) = true).
  { induction n as [|n IH]; intros [|a [|b [|c r]]] L; simpl in L;
      try reflexivity; try lia;
      cbn [b64encode ascii_bytes forallb]; rewrite ?b64_char_ascii; try reflexivity.
    apply IH. lia. }
  exact (G (length bs) bs (le_n _)).
Qed.

Lemma is_ascii_app (a b : str) : is_ascii (a ++ b) = is_ascii a && is_ascii b.
Proof. apply forallb_app. Qed.

Lemma land_0xF (x : N) : (N.land x 0xF < 16)%N.
Proof.
  change 0xF%N with (N.ones 4). rewrite N.land_ones.
  change (2 ^ 4)%N with 16%N. apply N.mod_lt. discriminate.
Qed.

Lemma hex_digit_ascii (n : N) : (n < 16)%N -> (hex_digit n <? 0x80)%N = true.
Proof.
  intros H. unfold hex_digit. apply N.ltb_lt.
  destruct (N.ltb_spec n 10); lia.
Qed.

Lemma hex4_ascii (n : N) : is_ascii (hex4 n) = true.
Proof.
  unfold hex4, is_ascii. cbn [forallb].
  now rewrite !hex_digit_ascii by apply land_0xF.
Qed.

Lemma escape_cp_ascii (c : codepoint) : is_ascii (escape_cp c) = true.
Proof.
  unfold escape_cp.
  repeat match goal with
         | |- context [if (c =? ?k)%N then _ else _] =>
             destruct (c =? k)%N; [reflexivity|]
         end.
  destruct ((0x20 <=? c) && (c <=? 0x7E))%N eqn:Hp.
  - apply andb_true_iff in Hp as [_ Hc]. apply N.leb_le in Hc.
    unfold is_ascii. cbn [forallb]. rewrite andb_true_r. apply N.ltb_lt. lia.
  - destruct (c <? 0x10000)%N.
    + change (is_ascii ([backslash; 117%N] ++ hex4 c) = true).
      now rewrite is_ascii_app, hex4_ascii.
    + match goal with
      | |- is_ascii (_ :: _ ++ ?h1 ++ _ :: _ ++ ?h2) = true =>
          change (is_ascii ([backslash; 117%N] ++ h1 ++ [backslash; 117%N] ++ h2)
                  = true)
      end.
      now rewrite !is_ascii_app, !hex4_ascii.
Qed.

Lemma encode_basestring_ascii_ascii (s : str) :
  is_ascii (encode_basestring_ascii s) = true.
Proof.
  unfold encode_basestring_ascii.
  change (is_ascii ([quote] ++ flat_map escape_cp s ++ [quote]) = true).
  rewrite !is_ascii_app. cbn [is_ascii forallb].
  rewrite andb_true_r. cbn [andb].
  induction s as [|c s IH]; [reflexivity|].
  cbn [flat_map]. fold (is_ascii (escape_cp c ++ flat_map escape_cp s)).
  rewrite is_ascii_app, escape_cp_ascii. exact IH.
Qed.

Lemma digits_ascii (d : Decimal.uint) :
  is_ascii (lit (NilEmpty.string_of_uint d)) = true.
Proof.
  unfold lit. induction d; simpl; auto.
Qed.

Lemma string_of_uint_ascii (d : Decimal.uint) :
  is_ascii (lit (NilZero.string_of_uint d)) = true.
Proof.
  destruct d; try reflexivity; apply digits_ascii.
Qed.

Lemma decimal_ascii (z : Z) : is_ascii (decimal z) = true.
Proof.
  unfold decimal. destruct (Z.to_int z) as [d|d]; simpl.
  - apply string_of_uint_ascii.
  - apply (string_of_uint_ascii d).
Qed.

Lemma join_ascii (sep : str) (parts : list str) :
  is_ascii sep = true ->
  Forall (fun p => is_ascii p = true) parts ->
  is_ascii (join sep parts) = true.
Proof.
  intros Hsep. induction 1 as [|p rest Hp Hrest IH]; [reflexivity|].
  destruct rest as [|q rest]; [exact Hp|].
  change (is_ascii (p ++ sep ++ join sep (q :: rest)) = true).
  now rewrite !is_ascii_app, Hp, Hsep, IH.
Qed.

(** Induction on values, through the lists they nest in. *)
Section ValueInduction.

Variable P : value -> Prop.
Hypothesis HNone : P PNone.
Hypothesis HBool : forall b, P (PBool b).
Hypothesis HInt : forall z, P (PInt z).
Hypothesis HStr : forall s, P (PStr s).
Hypothesis HList : forall l, Forall P l -> P (PList l).
Hypothesis HDict : forall d, Forall (fun kv => P (snd kv)) d -> P (PDict d).

Fixpoint value_induction (v : value) : P v :=
  match v with
  | PNone => HNone
  | PBool b => HBool b
  | PInt z => HInt z
  | PStr s => HStr s
  | PList l =>
      HList l
        ((fix all (l : list value) : Forall P l :=
            match l with
            | [] => Forall_nil P
            | x :: r => @Forall_cons _ P x r (value_induction x) (all r)
            end) l)
  | PDict d =>
      HDict d
        ((fix all (d : list (str * value)) : Forall (fun kv => P (snd kv)) d :=
            match d with
            | [] => Forall_nil _
            | (k, x) :: r =>
                @Forall_cons _ (fun kv => P (snd kv)) (k, x) r
                  (value_induction x) (all r)
            end) d)
  end.

End ValueInduction.

Lemma dumps_list (l : list value) :
  dumps (PList l) = lit "[" ++ join (lit ", ") (map dumps l) ++ lit "]".
Proof. reflexivity. Qed.

Lemma dumps_dict (d : dict) :
  dumps (PDict d)
  = lit "{"
    ++ join (lit ", ")
         (map (fun kv : str * value =>
                 encode_basestring_ascii (fst kv) ++ lit ": " ++ dumps (snd kv)) d)
    ++ lit "}".
Proof.
  change (dumps (PDict d))
    with (lit "{"
          ++ join (lit ", ")
               (map (fun kv : str * value =>
                       let (k, x) := kv in
                       encode_basestring_ascii k ++ lit ": " ++ dumps x) d)
          ++ lit "}").
  do 3 f_equal. apply map_ext. now intros [k x].
Qed.

(** [json.dumps] writes ASCII only. *)
Lemma dumps_ascii (v : value) : is_ascii (dumps v) = true.
Proof.
  induction v as [ | [|] | z | s | l IH | d IH ] using value_induction;
    try reflexivity.
  - apply decimal_ascii.
  - apply encode_basestring_ascii_ascii.
  - rewrite dumps_list, !is_ascii_app, join_ascii; try reflexivity.
    now apply Forall_map.
  - rewrite dumps_dict, !is_ascii_app, join_ascii; try reflexivity.
    apply Forall_map. apply Forall_impl with (2 := IH).
    intros [k x] H. cbn [fst snd] in *.
    now rewrite !is_ascii_app, encode_basestring_ascii_ascii, H.
Qed.

Lemma payload_ascii (data : option dict) : is_ascii (payload_of data) = true.
Proof.
  unfold payload_of. destruct (AccessGrid.truthy data); [|reflexivity].
  destruct data as [d|]; [apply dumps_ascii|reflexivity].
Qed.

Lemma payload_encodable (data : option dict) :
  encode (payload_of data) = Some (map byte_of_N (payload_of data)).
Proof. apply encode_ascii, payload_ascii. Qed.

(** ** The monad *)

Lemma bind_ret {A B} (a : A) (k : A -> M B) (w : log) :
  bind (ret a) k w = k a w.
Proof. reflexivity. Qed.

Lemma bind_raise {A B} (e : exn) (k : A -> M B) (w : log) :
  bind (raise e) k w = (Raises e, w).
Proof. reflexivity. Qed.

Lemma bind_run {A B} (m : M A) (k : A -> M B) (w w' : log) (a : A) :
  m w = (Returns a, w') -> bind m k w = k a w'.
Proof. unfold bind. now intros ->. Qed.

Lemma bind_fail {A B} (m : M A) (k : A -> M B) (w w' : log) (e : exn) :
  m w = (Raises e, w') -> bind m k w = (Raises e, w').
Proof. unfold bind. now intros ->. Qed.

(** ** The signature *)

Lemma _generate_signature_run (self : AccessGrid.t) (payload : str)
    (key raw : bytes) (w : log) :
  encode payload = Some raw ->
  encode (AccessGrid.secret_key self) = Some key ->
  AccessGrid._generate_signature self payload w = (Returns (signature key raw), w).
Proof.
  intros Hp Hk. unfold AccessGrid._generate_signature.
  rewrite Hp. cbn [unicode]. rewrite bind_ret.
  rewrite (decode_ascii _ (b64encode_ascii raw)). cbn [unicode]. rewrite bind_ret.
  rewrite Hk. cbn [unicode]. rewrite bind_ret.
  rewrite (encode_ascii _ (ascii_bytes_text _ (b64encode_ascii raw))).
  cbn [unicode]. rewrite bind_ret. rewrite map_byte_of_to_N. reflexivity.
Qed.

Lemma _generate_signature_bad_key (self : AccessGrid.t) (payload : str)
    (raw : bytes) (w : log) :
  encode payload = Some raw ->
  encode (AccessGrid.secret_key self) = None ->
  AccessGrid._generate_signature self payload w = (Raises UnicodeError, w).
Proof.
  intros Hp Hk. unfold AccessGrid._generate_signature.
  rewrite Hp. cbn [unicode]. rewrite bind_ret.
  rewrite (decode_ascii _ (b64encode_ascii raw)). cbn [unicode]. rewrite bind_ret.
  rewrite Hk. reflexivity.
Qed.

(** ** [_make_request], run *)

(** With a secret key that has a UTF-8 encoding, [_make_request] makes one
    call and settles its reply. *)
Lemma _make_request_run (E : Env) (self : AccessGrid.t) (method endpoint : str)
    (data params : option dict) (key : bytes) (w : log) :
  encode (AccessGrid.secret_key self) = Some key ->
  AccessGrid._make_request E self method endpoint data params w
  = (settle E (transport E w
                 (prepared E self method endpoint data params key
                    (map byte_of_N (payload_of data)))),
     w ++ [prepared E self method endpoint data params key
             (map byte_of_N (payload_of data))]).
Proof.
  intros Hk. unfold AccessGrid._make_request.
  change (if AccessGrid.truthy data
          then match data with Some d => dumps (PDict d) | None => [] end
          else []) with (payload_of data).
  rewrite (bind_run _ _ _ _ _
             (_generate_signature_run self _ key _ w (payload_encodable data) Hk)).
  unfold try_except, bind, AccessGrid.request.
  fold (body_of data). fold (prepared E self method endpoint data params key
                               (map byte_of_N (payload_of data))).
  destruct (transport E w _) as [r|d]; cbn [settle]; [|reflexivity].
  destruct (Response.status_code r =? 401)%Z; [reflexivity|].
  destruct (Response.status_code r =? 402)%Z; [reflexivity|].
  destruct (negb _).
  - destruct (Response.text r) as [|c t] eqn:Ht.
    + reflexivity.
    + unfold AccessGrid.response_json.
      destruct (Response.json r) as [v|d]; cbn.
      * destruct v; reflexivity.
      * unfold json_failure. now destruct (json_error_is_request_exception E).
  - unfold AccessGrid.response_json, json_failure.
    destruct (Response.json r) as [v|d]; cbn; [reflexivity|].
    now destruct (json_error_is_request_exception E).
Qed.

(** Without one, it raises before any call. *)
Lemma _make_request_bad_key (E : Env) (self : AccessGrid.t) (method endpoint : str)
    (data params : option dict) (w : log) :
  encode (AccessGrid.secret_key self) = None ->
  AccessGrid._make_request E self method endpoint data params w
  = (Raises UnicodeError, w).
Proof.
  intros Hk. unfold AccessGrid._make_request.
  change (if AccessGrid.truthy data
          then match data with Some d => dumps (PDict d) | None => [] end
          else []) with (payload_of data).
  now rewrite (bind_fail _ _ _ _ _
                 (_generate_signature_bad_key self _ _ w (payload_encodable data) Hk)).
Qed.

Lemma skipn_app_exact {A} (w l : list A) : skipn (length w) (w ++ l) = l.
Proof. induction w; simpl; auto. Qed.

Lemma skipn_length_self {A} (w : list A) : skipn (length w) w = [].
Proof. induction w; simpl; auto. Qed.

Lemma sent_by_make_request (E : Env) (self : AccessGrid.t) (method endpoint : str)
    (data params : option dict) (w : log) :
  sent_by (AccessGrid._make_request E self method endpoint data params) w
  = match encode (AccessGrid.secret_key self) with
    | Some key =>
        [prepared E self method endpoint data params key
           (map byte_of_N (payload_of data))]
    | None => []
    end.
Proof.
  unfold sent_by.
  destruct (encode (AccessGrid.secret_key self)) as [key|] eqn:Hk.
  - rewrite (_make_request_run E self method endpoint data params key w Hk).
    apply skipn_app_exact.
  - rewrite (_make_request_bad_key E self method endpoint data params w Hk).
    apply skipn_length_self.
Qed.

(** ** The operations, run *)

Lemma silent_ret {A} (a : A) : silent (ret a).
Proof. now intros w. Qed.

Lemma silent_raise {A} (e : exn) : silent (@raise A e).
Proof. now intros w. Qed.

Lemma silent_bind {A B} (m : M A) (k : A -> M B) :
  silent m -> (forall a, silent (k a)) -> silent (bind m k).
Proof.
  intros Hm Hk w. unfold bind. rewrite (Hm w).
  destruct (fst (m w)) as [a|e]; [apply Hk|reflexivity].
Qed.

Lemma silent_py_get (v : value) (k : str) (default : value) :
  silent (py_get v k default).
Proof. destruct v; (apply silent_ret || apply silent_raise). Qed.

Lemma silent_AccessCard (client : AccessGrid.t) (data : value) :
  silent (AccessCard.__init__ client data).
Proof.
  unfold AccessCard.__init__.
  repeat (apply silent_bind; [apply silent_py_get|intros ?]).
  apply silent_ret.
Qed.

Lemma silent_Template (client : AccessGrid.t) (data : value) :
  silent (Template.__init__ client data).
Proof.
  unfold Template.__init__.
  repeat (apply silent_bind; [apply silent_py_get|intros ?]).
  apply silent_ret.
Qed.

Lemma silent_wrap (self : AccessGrid.t) (op : call) (v : value) :
  silent (wrap self op v).
Proof.
  destruct op; unfold wrap, fmap;
    try apply silent_ret;
    (apply silent_bind; [apply silent_AccessCard || apply silent_Template
                        |intros ?; apply silent_ret]).
Qed.

Lemma snd_bind_silent {A B} (m : M A) (k : A -> M B) (w : log) :
  (forall a, silent (k a)) -> snd (bind m k w) = snd (m w).
Proof.
  intros Hk. unfold bind. destruct (m w) as [[a|e] w']; [|reflexivity].
  now rewrite (Hk a w').
Qed.

Lemma fmap_bind {A B C} (f : B -> C) (m : M A) (k : A -> M B) (w : log) :
  fmap f (bind m k) w = bind m (fun a => fmap f (k a)) w.
Proof.
  unfold fmap, bind. now destruct (m w) as [[a|e] w'].
Qed.

(** Each operation is one call of [_make_request], its response wrapped. *)
Lemma perform_unfold (E : Env) (self : AccessGrid.t) (op : call) (w : log) :
  perform E self op w
  = bind (AccessGrid._make_request E self (method_of op) (endpoint_of op)
            (data_of op) (params_of op))
         (wrap self op) w.
Proof.
  destruct op;
    match goal with
    | |- perform _ _ ?op _ = _ =>
        first
          [ reflexivity
          | exact (fmap_bind Card
                     (AccessGrid._make_request E self (method_of op)
                        (endpoint_of op) (data_of op) (params_of op))
                     (AccessCard.__init__ self) w)
          | exact (fmap_bind Templ
                     (AccessGrid._make_request E self (method_of op)
                        (endpoint_of op) (data_of op) (params_of op))
                     (Template.__init__ self) w) ]
    end.
Qed.

Lemma sent_by_perform (E : Env) (self : AccessGrid.t) (op : call) (w : log) :
  sent_by (perform E self op) w
  = match encode (AccessGrid.secret_key self) with
    | Some key => [request_of E self op key]
    | None => []
    end.
Proof.
  unfold sent_by. rewrite perform_unfold.
  rewrite snd_bind_silent by (intros v; apply silent_wrap).
  apply sent_by_make_request.
Qed.

Lemma log_after_perform (E : Env) (self : AccessGrid.t) (op : call) (w : log) :
  snd (perform E self op w) = w ++ sent_by (perform E self op) w.
Proof.
  rewrite sent_by_perform. rewrite perform_unfold.
  rewrite snd_bind_silent by (intros v; apply silent_wrap).
  destruct (encode (AccessGrid.secret_key self)) as [key|] eqn:Hk.
  - now rewrite (_make_request_run E self _ _ _ _ key w Hk).
  - rewrite (_make_request_bad_key E self _ _ _ _ w Hk). cbn. now rewrite app_nil_r.
Qed.

(** An error of [_make_request] is the operation's error. *)
Lemma perform_raises (E : Env) (self : AccessGrid.t) (op : call) (w : log) (e : exn) :
  result_of (AccessGrid._make_request E self (method_of op) (endpoint_of op)
               (data_of op) (params_of op)) w = Raises e ->
  result_of (perform E self op) w = Raises e.
Proof.
  unfold result_of. rewrite perform_unfold. unfold bind.
  destruct (AccessGrid._make_request E self (method_of op) (endpoint_of op)
              (data_of op) (params_of op) w) as [[v|e'] w']; cbn [fst].
  - discriminate.
  - intros H. injection H as ->. reflexivity.
Qed.

Lemma header_signature (E : Env) (self : AccessGrid.t) (method endpoint : str)
    (data params : option dict) (key raw : bytes) :
  header (lit "X-PAYLOAD-SIG") (prepared E self method endpoint data params key raw)
  = Some (signature key raw).
Proof. reflexivity. Qed.

Lemma header_account (E : Env) (self : AccessGrid.t) (method endpoint : str)
    (data params : option dict) (key raw : bytes) :
  header (lit "X-ACCT-ID") (prepared E self method endpoint data params key raw)
  = Some (AccessGrid.account_id self).
Proof. reflexivity. Qed.

Lemma sent_by_fmap {A B} (f : A -> B) (m : M A) (w : log) :
  sent_by (fmap f m) w = sent_by m w.
Proof.
  unfold sent_by, fmap. rewrite snd_bind_silent; [reflexivity|].
  intros a. apply silent_ret.
Qed.

Lemma sent_by_card (E : Env) (self : AccessGrid.t) (op : call)
    (m : M AccessCard.t) (w : log) :
  perform E self op = fmap Card m -> sent_by m w = sent_by (perform E self op) w.
Proof. intros ->. symmetry. apply sent_by_fmap. Qed.

Lemma sent_by_template (E : Env) (self : AccessGrid.t) (op : call)
    (m : M Template.t) (w : log) :
  perform E self op = fmap Templ m -> sent_by m w = sent_by (perform E self op) w.
Proof. intros ->. symmetry. apply sent_by_fmap. Qed.

Lemma sent_by_raw (E : Env) (self : AccessGrid.t) (op : call)
    (m : M value) (w : log) :
  perform E self op = fmap Raw m -> sent_by m w = sent_by (perform E self op) w.
Proof. intros ->. symmetry. apply sent_by_fmap. Qed.

Lemma body_text_body_of (data : option dict) :
  body_text (body_of data) = payload_of data.
Proof.
  unfold body_of, payload_of. now destruct (AccessGrid.truthy data).
Qed.

Lemma hex_digit_lower (n : N) : (n < 16)%N -> is_lower_hex (hex_digit n) = true.
Proof.
  intros H. unfold is_lower_hex, hex_digit. apply orb_true_iff.
  destruct (N.ltb_spec n 10); [left|right];
    apply andb_true_iff; split; apply N.leb_le; lia.
Qed.

Lemma hex_lower (bs : bytes) : forallb is_lower_hex (hex bs) = true.
Proof.
  unfold hex. induction bs as [|b bs IH]; [reflexivity|].
  cbn [flat_map hex_byte app forallb]. rewrite IH, !hex_digit_lower; try reflexivity.
  - apply land_0xF.
  - rewrite N.shiftr_div_pow2. change (2 ^ 4)%N with 16%N.
    apply N.Div0.div_lt_upper_bound. pose proof (Byte.to_N_bounded b). lia.
Qed.


(* ================================================================= *)
(** * The request signature *)


(** C3.  When no body is supplied (no data, or an empty dict), the request
    carries no body and the signed text is the base64 text of the empty
    string: the signature is hex(HMAC-SHA256(secret key, base64(""))). *)
Theorem empty_body_signature E self method endpoint data params w :
  AccessGrid.truthy data = false ->
  Forall
    (fun req =>
       Request.json req = None /\
       exists key raw,
         encode (AccessGrid.secret_key self) = Some key /\
         encode [] = Some raw /\
         header (lit "X-PAYLOAD-SIG") req
         = Some (hex (HMAC.hmac_sha256 key (b64encode raw))))
    (sent_by (AccessGrid._make_request E self method endpoint data params) w)
  /\ length (sent_by (AccessGrid._make_request E self method endpoint data params) w)
     = match encode (AccessGrid.secret_key self) with
       | Some _ => 1%nat
       | None => 0%nat
       end.
Proof.
  intros Hd. rewrite sent_by_make_request.
  destruct (encode (AccessGrid.secret_key self)) as [key|]; split;
    try reflexivity; constructor; [|constructor].
  unfold prepared, body_of, payload_of. rewrite Hd. cbn [Request.json].
  split; [reflexivity|]. exists key, []. repeat split; reflexivity.
Qed.

Lemma empty_body_signature_witness :
  AccessGrid.truthy (Some []) = false /\
  Forall
    (fun req =>
       Request.json req = None /\
       exists key raw,
         encode (AccessGrid.secret_key Sample.client) = Some key /\
         encode [] = Some raw /\
         header (lit "X-PAYLOAD-SIG") req
         = Some (hex (HMAC.hmac_sha256 key (b64encode raw))))
    (sent_by (AccessGrid._make_request
                (Sample.env true (Sample.json_response 200 Sample.card))
                Sample.client (lit "POST") (lit "/v1/key-cards/key_1/suspend")
                (Some []) None) []).
Proof.
  split; [reflexivity|].
  apply (empty_body_signature
           (Sample.env true (Sample.json_response 200 Sample.card))
           Sample.client (lit "POST") (lit "/v1/key-cards/key_1/suspend")
           (Some []) None []).
  reflexivity.
Defined.

(* ================================================================= *)
(** * The resource clients *)


(** C6.  An AccessCard or a Template is built from any response mapping,
    whichever of its keys are there: construction returns, each field holds
    what the mapping has under the field's key, and None when the key is
    absent; from the empty mapping every field is None. *)
Theorem entity_fields_optional (client : AccessGrid.t) (d : dict) (w : log) :
  AccessCard.__init__ client (PDict d) w
  = (Returns
       {| AccessCard._client := client;
          AccessCard.id := get d (lit "id") PNone;
          AccessCard.url := get d (lit "install_url") PNone;
          AccessCard.state := get d (lit "state") PNone;
          AccessCard.full_name := get d (lit "full_name") PNone;
          AccessCard.expiration_date := get d (lit "expiration_date") PNone |}, w)
  /\ Template.__init__ client (PDict d) w
     = (Returns
          {| Template._client := client;
             Template.id := get d (lit "id") PNone;
             Template.name := get d (lit "name") PNone;
             Template.platform := get d (lit "platform") PNone;
             Template.use_case := get d (lit "use_case") PNone;
             Template.protocol := get d (lit "protocol") PNone;
             Template.created_at := get d (lit "created_at") PNone;
             Template.last_published_at := get d (lit "last_published_at") PNone;
             Template.issued_keys_count := get d (lit "issued_keys_count") PNone;
             Template.active_keys_count := get d (lit "active_keys_count") PNone;
             Template.allowed_device_counts :=
               get d (lit "allowed_device_counts") PNone;
             Template.support_settings := get d (lit "support_settings") PNone;
             Template.terms_settings := get d (lit "terms_settings") PNone;
             Template.style_settings := get d (lit "style_settings") PNone |}, w)
  /\ (forall k, assoc k d = None -> get d k PNone = PNone)
  /\ AccessCard.__init__ client (PDict []) w
     = (Returns (AccessCard.Make client PNone PNone PNone PNone PNone), w)
  /\ Template.__init__ client (PDict []) w
     = (Returns
          (Template.Make client PNone PNone PNone PNone PNone PNone PNone PNone
             PNone PNone PNone PNone PNone), w).
Proof.
  repeat split. intros k Hk. unfold get. now rewrite Hk.
Qed.

(** C10.  The path of every operation that takes an identifier is the plain
    concatenation of the endpoint's text and the identifier (and action), and
    the URL the base URL followed by it: nothing is percent-encoded.  Every
    request these operations make has that URL; and they make it: with a
    secret key that has a UTF-8 encoding, [manage], [read_template] and
    [get_logs] make exactly one request, to that URL, for every identifier
    and action, and so do [update] and [update_template] for fields that
    [json.dumps] serialises.  A card id with spaces, slashes and a question
    mark goes into the URL as it is, and [read_template] on the id
    "t_1/logs" asks for the URL of [get_logs] on "t_1". *)
Theorem paths_are_interpolated_verbatim :
  (forall E self card_id action template_id kwargs w,
      Forall (fun req =>
                Request.url req
                = AccessGrid.base_url self ++ lit "/v1/key-cards/" ++ card_id)
        (sent_by (AccessCards.update E (access_cards self) card_id kwargs) w)
      /\ Forall (fun req =>
                   Request.url req
                   = AccessGrid.base_url self
                     ++ lit "/v1/key-cards/" ++ card_id ++ lit "/" ++ action)
           (sent_by (AccessCards.manage E (access_cards self) card_id action) w)
      /\ Forall (fun req =>
                   Request.url req
                   = AccessGrid.base_url self
                     ++ lit "/v1/console/card-templates/" ++ template_id)
           (sent_by (Console.update_template E (console self) template_id kwargs) w)
      /\ Forall (fun req =>
                   Request.url req
                   = AccessGrid.base_url self
                     ++ lit "/v1/console/card-templates/" ++ template_id)
           (sent_by (Console.read_template E (console self) template_id) w)
      /\ Forall (fun req =>
                   Request.url req
                   = AccessGrid.base_url self
                     ++ lit "/v1/console/card-templates/" ++ template_id
                     ++ lit "/logs")
           (sent_by (Console.get_logs E (console self) template_id kwargs) w))
  /\
  (forall E self key card_id action template_id kwargs w,
      encode (AccessGrid.secret_key self) = Some key ->
      map Request.url
        (sent_by (AccessCards.manage E (access_cards self) card_id action) w)
      = [AccessGrid.base_url self
         ++ lit "/v1/key-cards/" ++ card_id ++ lit "/" ++ action]
      /\ map Request.url
           (sent_by (Console.read_template E (console self) template_id) w)
         = [AccessGrid.base_url self
            ++ lit "/v1/console/card-templates/" ++ template_id]
      /\ map Request.url
           (sent_by (Console.get_logs E (console self) template_id kwargs) w)
         = [AccessGrid.base_url self
            ++ lit "/v1/console/card-templates/" ++ template_id ++ lit "/logs"]
      /\ (serialisable (PDict kwargs) = true ->
          map Request.url
            (sent_by (AccessCards.update E (access_cards self) card_id kwargs) w)
          = [AccessGrid.base_url self ++ lit "/v1/key-cards/" ++ card_id]
          /\ map Request.url
               (sent_by (Console.update_template E (console self) template_id kwargs) w)
             = [AccessGrid.base_url self
                ++ lit "/v1/console/card-templates/" ++ template_id]))
  /\
  (forall E w,
      map Request.url
        (sent_by (AccessCards.manage E (access_cards Sample.client)
                    (lit "key 1/../key_2?x=1") (lit "suspend")) w)
      = [lit "https://api.accessgrid.com/v1/key-cards/key 1/../key_2?x=1/suspend"]
      /\ map Request.url
           (sent_by (AccessCards.update E (access_cards Sample.client)
                       (lit "key 1/../key_2?x=1") Sample.jane_doe) w)
         = [lit "https://api.accessgrid.com/v1/key-cards/key 1/../key_2?x=1"]
      /\ map Request.url
           (sent_by (Console.update_template E (console Sample.client)
                       (lit "t 1?draft#top") Sample.jane_doe) w)
         = [lit "https://api.accessgrid.com/v1/console/card-templates/t 1?draft#top"]
      /\ map (fun req => (Request.method req, Request.url req))
           (sent_by (Console.read_template E (console Sample.client)
                       (lit "t_1/logs")) w)
         = map (fun req => (Request.method req, Request.url req))
             (sent_by (Console.get_logs E (console Sample.client) (lit "t_1") []) w)
      /\ map (fun req => (Request.method req, Request.url req))
           (sent_by (Console.get_logs E (console Sample.client) (lit "t_1") []) w)
         = [(lit "GET",
             lit "https://api.accessgrid.com/v1/console/card-templates/t_1/logs")]).
Proof.
  split; [|split].
  - intros.
    rewrite (sent_by_card E self (Update card_id kwargs) _ w eq_refl).
    rewrite (sent_by_card E self (Manage card_id action) _ w eq_refl).
    rewrite (sent_by_template E self (UpdateTemplate template_id kwargs) _ w eq_refl).
    rewrite (sent_by_template E self (ReadTemplate template_id) _ w eq_refl).
    rewrite (sent_by_raw E self (GetLogs template_id kwargs) _ w eq_refl).
    rewrite !sent_by_perform.
    destruct (encode (AccessGrid.secret_key self)) as [key|];
      repeat split; repeat constructor.
  - intros E self key card_id action template_id kwargs w Hk.
    rewrite (sent_by_card E self (Update card_id kwargs) _ w eq_refl).
    rewrite (sent_by_card E self (Manage card_id action) _ w eq_refl).
    rewrite (sent_by_template E self (UpdateTemplate template_id kwargs) _ w eq_refl).
    rewrite (sent_by_template E self (ReadTemplate template_id) _ w eq_refl).
    rewrite (sent_by_raw E self (GetLogs template_id kwargs) _ w eq_refl).
    rewrite !sent_by_perform, Hk.
    split; [reflexivity|]. split; [reflexivity|]. split; [reflexivity|].
    intros _. split; reflexivity.
  - intros.
    rewrite (sent_by_card E Sample.client
               (Manage (lit "key 1/../key_2?x=1") (lit "suspend")) _ w eq_refl).
    rewrite (sent_by_card E Sample.client
               (Update (lit "key 1/../key_2?x=1") Sample.jane_doe) _ w eq_refl).
    rewrite (sent_by_template E Sample.client
               (UpdateTemplate (lit "t 1?draft#top") Sample.jane_doe) _ w eq_refl).
    rewrite (sent_by_template E Sample.client (ReadTemplate (lit "t_1/logs")) _ w eq_refl).
    rewrite (sent_by_raw E Sample.client (GetLogs (lit "t_1") []) _ w eq_refl).
    rewrite !sent_by_perform.
    assert (Hk : encode (AccessGrid.secret_key Sample.client)
                 = Some (list_byte_of_string "s3cret")) by (vm_compute; reflexivity).
    rewrite Hk. repeat split.
Qed.

Lemma paths_are_interpolated_verbatim_witness :
  encode (AccessGrid.secret_key Sample.client) = Some (list_byte_of_string "s3cret")
  /\ serialisable (PDict Sample.jane_doe) = true
  /\ map Request.url
       (sent_by (AccessCards.update
                   (Sample.env true (Sample.json_response 200 Sample.card))
                   (access_cards Sample.client) (lit "key_1/x y") Sample.jane_doe) [])
     = [AccessGrid.base_url Sample.client ++ lit "/v1/key-cards/" ++ lit "key_1/x y"].
Proof.
  assert (Hk : encode (AccessGrid.secret_key Sample.client)
               = Some (list_byte_of_string "s3cret")) by (vm_compute; reflexivity).
  assert (Hs : serialisable (PDict Sample.jane_doe) = true)
    by (vm_compute; reflexivity).
  split; [exact Hk|]. split; [exact Hs|].
  exact (proj1 (proj2 (proj2 (proj2
    (proj1 (proj2 paths_are_interpolated_verbatim)
       (Sample.env true (Sample.json_response 200 Sample.card)) Sample.client
       (list_byte_of_string "s3cret") (lit "key_1/x y") (lit "suspend") (lit "t_1")
       Sample.jane_doe [] Hk))) Hs)).
Defined.

(* ================================================================= *)
(** * The top-level client *)

Lemma rstrip_suffix (ch : codepoint) (s : str) :
  exists n, s = rstrip ch s ++ repeat ch n.
Proof.
  induction s as [|c s [n Hn]]; [now exists 0%nat|].
  cbn [rstrip]. destruct (rstrip ch s) as [|x t].
  - destruct (N.eqb_spec c ch) as [->|_].
    + exists (S n). cbn. now f_equal.
    + exists n. cbn. now f_equal.
  - exists n. cbn. now f_equal.
Qed.

Lemma rstrip_clean (ch : codepoint) (s : str) : ~ ends_with ch (rstrip ch s).
Proof.
  induction s as [|c s IH]; intros [s' H].
  - now destruct s'.
  - cbn [rstrip] in H. destruct (rstrip ch s) as [|x t].
    + destruct (N.eqb_spec c ch) as [->|Hc].
      * now destruct s'.
      * destruct s' as [|y [|z s']]; cbn in H; congruence.
    + destruct s' as [|y s']; cbn in H.
      * discriminate.
      * apply IH. exists s'. congruence.
Qed.

Lemma session_log (E : Env) (self : AccessGrid.t) (ops : list call) (w : log) :
  exists sent,
    snd (session E self ops w) = w ++ sent /\
    Forall (fun req =>
              exists op key,
                In op ops /\
                encode (AccessGrid.secret_key self) = Some key /\
                req = request_of E self op key) sent.
Proof.
  revert w. induction ops as [|op rest IH]; intros w.
  - exists []. cbn. now rewrite app_nil_r.
  - cbn [session].
    pose proof (log_after_perform E self op w) as Hop.
    rewrite sent_by_perform in Hop.
    destruct (perform E self op w) as [o w1]. cbn [snd] in Hop.
    destruct (IH w1) as [sent [Hlog Hall]].
    destruct (session E self rest w1) as [os w2]. cbn [snd] in *.
    subst w2 w1.
    destruct (encode (AccessGrid.secret_key self)) as [key|] eqn:Hk.
    + exists (request_of E self op key :: sent). split.
      * now rewrite <- app_assoc.
      * constructor.
        -- exists op, key. repeat split. now left.
        -- apply Forall_impl with (2 := Hall).
           intros req [op' [key' [Hin H]]]. exists op', key'. split; [now right|exact H].
    + exists sent. rewrite app_nil_r. split; [reflexivity|].
      apply Forall_impl with (2 := Hall).
      intros req [op' [key' [Hin H]]]. exists op', key'. split; [now right|exact H].
Qed.

(** C7.  Constructing the client with a missing (None) or empty account id or
    secret key raises the configuration error, ValueError in this code, and
    makes no call.  Otherwise construction returns, without a call, a client
    that holds the two credentials as given and the base URL (the default one
    when none is given) with every trailing slash removed; and whatever
    series of operations is made through the client afterwards, each request
    carries that account id, is signed under that secret key and goes to a
    URL under that base URL. *)
Theorem client_construction :
  (forall account_id secret_key base_url w,
      AccessGrid.falsy account_id || AccessGrid.falsy secret_key = true ->
      exists msg,
        AccessGrid.__init__ account_id secret_key base_url w
        = (Raises (ValueError msg), w))
  /\
  (forall account_id secret_key base_url w,
      AccessGrid.falsy account_id = false ->
      AccessGrid.falsy secret_key = false ->
      exists self given,
        AccessGrid.__init__ account_id secret_key base_url w = (Returns self, w)
        /\ account_id = Some (AccessGrid.account_id self)
        /\ secret_key = Some (AccessGrid.secret_key self)
        /\ given = match base_url with
                   | Some b => b
                   | None => lit "https://api.accessgrid.com"
                   end
        /\ AccessGrid.base_url self = rstrip AccessGrid.slash given
        /\ (exists n, given = AccessGrid.base_url self ++ repeat AccessGrid.slash n)
        /\ ~ ends_with AccessGrid.slash (AccessGrid.base_url self)
        /\ forall E ops w0,
            Forall
              (fun req =>
                 header (lit "X-ACCT-ID") req = Some (AccessGrid.account_id self)
                 /\ starts_with (AccessGrid.base_url self) (Request.url req)
                 /\ exists key raw,
                     encode (AccessGrid.secret_key self) = Some key
                     /\ header (lit "X-PAYLOAD-SIG") req = Some (signature key raw))
              (skipn (length w0) (snd (session E self ops w0)))).
Proof.
  split.
  - intros a k b w H. unfold AccessGrid.__init__.
    destruct (AccessGrid.falsy a); [eexists; reflexivity|].
    cbn in H. rewrite H. eexists; reflexivity.
  - intros a k b w Ha Hk. unfold AccessGrid.__init__. rewrite Ha, Hk.
    eexists. eexists. split; [reflexivity|]. cbn [AccessGrid.account_id
      AccessGrid.secret_key AccessGrid.base_url].
    split; [destruct a as [[|? ?]|]; try discriminate; reflexivity|].
    split; [destruct k as [[|? ?]|]; try discriminate; reflexivity|].
    split; [reflexivity|]. split; [reflexivity|].
    split; [apply rstrip_suffix|]. split; [apply rstrip_clean|].
    intros E ops w0.
    match goal with
    | |- context [session E ?c ops w0] =>
        destruct (session_log E c ops w0) as [sent [Hlog Hall]]
    end.
    rewrite Hlog, skipn_app_exact.
    apply Forall_impl with (2 := Hall).
    intros req [op [key [_ [Hkey ->]]]]. unfold request_of.
    split; [apply header_account|]. split.
    + eexists. reflexivity.
    + exists key. eexists. split; [exact Hkey|apply header_signature].
Qed.

Lemma client_construction_witness :
  (exists msg,
      AccessGrid.__init__ (Some (lit "acct_1")) (Some []) None []
      = (Raises (ValueError msg), []))
  /\
  (exists self given,
      AccessGrid.__init__ (Some (lit "acct_1")) (Some (lit "s3cret"))
        (Some (lit "https://staging.accessgrid.com//")) []
      = (Returns self, [])
      /\ Some (lit "acct_1") = Some (AccessGrid.account_id self)
      /\ Some (lit "s3cret") = Some (AccessGrid.secret_key self)
      /\ given = lit "https://staging.accessgrid.com//"
      /\ AccessGrid.base_url self = rstrip AccessGrid.slash given
      /\ (exists n, given = AccessGrid.base_url self ++ repeat AccessGrid.slash n)
      /\ ~ ends_with AccessGrid.slash (AccessGrid.base_url self)
      /\ forall E ops w0,
          Forall
            (fun req =>
               header (lit "X-ACCT-ID") req = Some (AccessGrid.account_id self)
               /\ starts_with (AccessGrid.base_url self) (Request.url req)
               /\ exists key raw,
                   encode (AccessGrid.secret_key self) = Some key
                   /\ header (lit "X-PAYLOAD-SIG") req = Some (signature key raw))
            (skipn (length w0) (snd (session E self ops w0)))).
Proof.
  split.
  - apply (proj1 client_construction (Some (lit "acct_1")) (Some []) None []).
    reflexivity.
  - apply (proj2 client_construction (Some (lit "acct_1")) (Some (lit "s3cret"))
             (Some (lit "https://staging.accessgrid.com//")) []);
      reflexivity.
Defined.

(* ================================================================= *)
(** * Determinism of the signature *)

Lemma _generate_signature_result (self : AccessGrid.t) (payload : str) (w : log) :
  result_of (AccessGrid._generate_signature self payload) w
  = match encode payload, encode (AccessGrid.secret_key self) with
    | Some raw, Some key => Returns (signature key raw)
    | _, _ => Raises UnicodeError
    end.
Proof.
  unfold result_of.
  destruct (encode payload) as [raw|] eqn:Hp.
  - destruct (encode (AccessGrid.secret_key self)) as [key|] eqn:Hk.
    + now rewrite (_generate_signature_run self payload key raw w Hp Hk).
    + now rewrite (_generate_signature_bad_key self payload raw w Hp Hk).
  - unfold AccessGrid._generate_signature. now rewrite Hp.
Qed.

Lemma signature_key_block (key1 key2 raw : bytes) :
  HMAC.key_block key1 = HMAC.key_block key2 ->
  signature key1 raw = signature key2 raw.
Proof.
  intros H. unfold signature, HMAC.hmac_sha256. cbv zeta. now rewrite H.
Qed.

(** C9, as the code has it.  The signature is a function of the secret key
    and the payload alone: two computations with the same secret key and
    payload give the same result whatever the account id, the base URL and
    the log, and two requests with the same secret key and data carry the same
    signature whatever the method, endpoint, query parameters and
    environment.  A different secret or body need not give a different
    signature: the key enters through its HMAC key block (the key filled with
    zero octets to 64, a longer key replaced by its SHA-256 digest), and
    secrets with the same key block sign alike, as do bodies with the same
    JSON text.  The sample inputs (two payloads under one secret, two secrets
    on one payload) get different signatures. *)
Theorem signature_is_deterministic :
  (forall self1 self2 payload w1 w2,
      AccessGrid.secret_key self1 = AccessGrid.secret_key self2 ->
      result_of (AccessGrid._generate_signature self1 payload) w1
      = result_of (AccessGrid._generate_signature self2 payload) w2)
  /\
  (forall E1 E2 self1 self2 method1 method2 endpoint1 endpoint2 data
          params1 params2 w1 w2,
      AccessGrid.secret_key self1 = AccessGrid.secret_key self2 ->
      map (header (lit "X-PAYLOAD-SIG"))
        (sent_by (AccessGrid._make_request E1 self1 method1 endpoint1 data params1) w1)
      = map (header (lit "X-PAYLOAD-SIG"))
          (sent_by (AccessGrid._make_request E2 self2 method2 endpoint2 data params2) w2))
  /\
  (forall self1 self2 key1 key2 payload w1 w2,
      encode (AccessGrid.secret_key self1) = Some key1 ->
      encode (AccessGrid.secret_key self2) = Some key2 ->
      HMAC.key_block key1 = HMAC.key_block key2 ->
      result_of (AccessGrid._generate_signature self1 payload) w1
      = result_of (AccessGrid._generate_signature self2 payload) w2)
  /\
  (result_of (AccessGrid._generate_signature Sample.client []) []
   <> result_of (AccessGrid._generate_signature Sample.client
                   (dumps (PDict Sample.jane_doe))) []
   /\ result_of (AccessGrid._generate_signature
                   (AccessGrid.Make (lit "acct_1") (lit "a") (lit "https://h")) []) []
      <> result_of (AccessGrid._generate_signature
                      (AccessGrid.Make (lit "acct_1") (lit "b") (lit "https://h")) []) []).
Proof.
  split; [|split; [|split]].
  - intros self1 self2 payload w1 w2 H.
    now rewrite !_generate_signature_result, H.
  - intros. rewrite !sent_by_make_request, H.
    destruct (encode (AccessGrid.secret_key self2)); reflexivity.
  - intros self1 self2 key1 key2 payload w1 w2 H1 H2 Hb.
    rewrite !_generate_signature_result, H1, H2.
    destruct (encode payload) as [raw|]; [|reflexivity].
    f_equal. now apply signature_key_block.
  - split; vm_compute; discriminate.
Qed.

Lemma signature_is_deterministic_witness :
  result_of (AccessGrid._generate_signature
               (AccessGrid.Make (lit "acct_1") (lit "s3cret") (lit "https://a")) (lit "{}"))
    []
  = result_of (AccessGrid._generate_signature
                 (AccessGrid.Make (lit "acct_2") (lit "s3cret") (lit "https://b")) (lit "{}"))
      [].
Proof.
  apply (proj1 signature_is_deterministic
           (AccessGrid.Make (lit "acct_1") (lit "s3cret") (lit "https://a"))
           (AccessGrid.Make (lit "acct_2") (lit "s3cret") (lit "https://b"))
           (lit "{}") [] []).
  reflexivity.
Defined.

(** C9, as stated, fails.  The secrets "a" and "a" followed by U+0000
    differ, both pass the constructor, and they sign the same payload alike.
    And two bodies that differ, one naming U+1F600 and one holding its two
    surrogates D83D DE00 as code points, have the same JSON text and so the
    same signature. *)
Lemma distinct_inputs_same_signature :
  (exists self1 self2,
      AccessGrid.__init__ (Some (lit "acct_1")) (Some (lit "a")) None []
      = (Returns self1, [])
      /\ AccessGrid.__init__ (Some (lit "acct_1")) (Some [0x61; 0]%N) None []
         = (Returns self2, [])
      /\ AccessGrid.secret_key self1 <> AccessGrid.secret_key self2
      /\ result_of (AccessGrid._generate_signature self1
                      (dumps (PDict Sample.jane_doe))) []
         = result_of (AccessGrid._generate_signature self2
                        (dumps (PDict Sample.jane_doe))) []
      /\ result_of (AccessGrid._generate_signature self1
                      (dumps (PDict Sample.jane_doe))) []
         = Returns
             (lit "69a626bf7cb141b591d404e7c4a46c2238491a4401869b46e26e8d9f22420275"))
  /\
  (PStr [0x1F600]%N <> PStr [0xD83D; 0xDE00]%N
   /\ map (header (lit "X-PAYLOAD-SIG"))
        (sent_by (AccessCards.issue
                    (Sample.env true (Sample.json_response 200 Sample.card))
                    (access_cards Sample.client)
                    [(lit "full_name", PStr [0x1F600]%N)]) [])
      = map (header (lit "X-PAYLOAD-SIG"))
          (sent_by (AccessCards.issue
                      (Sample.env true (Sample.json_response 200 Sample.card))
                      (access_cards Sample.client)
                      [(lit "full_name", PStr [0xD83D; 0xDE00]%N)]) [])
   /\ map (header (lit "X-PAYLOAD-SIG"))
        (sent_by (AccessCards.issue
                    (Sample.env true (Sample.json_response 200 Sample.card))
                    (access_cards Sample.client)
                    [(lit "full_name", PStr [0x1F600]%N)]) [])
      = [Some (lit "3ccc0ef33b43b47c0476d64c6fb5aae33c132b7d22a37039c76ff4e84944ccb8")]).
Proof.
  split.
  - eexists. eexists. split; [reflexivity|]. split; [reflexivity|].
    split; [discriminate|]. split; vm_compute; reflexivity.
  - split; [discriminate|]. split; vm_compute; reflexivity.
Qed.

(* ================================================================= *)
(** * Classification of the response *)

(** When [_make_request] has made its call [req] and the transport answered
    with the response [r], the result is [settle] of that response. *)
Lemma result_of_response (E : Env) (self : AccessGrid.t) (method endpoint : str)
    (data params : option dict) (w : log) (req : Request.t) (r : Response.t) :
  sent_by (AccessGrid._make_request E self method endpoint data params) w = [req] ->
  transport E w req = Responded r ->
  result_of (AccessGrid._make_request E self method endpoint data params) w
  = settle E (Responded r).
Proof.
  intros Hsent Hrep. rewrite sent_by_make_request in Hsent. unfold result_of.
  destruct (encode (AccessGrid.secret_key self)) as [key|] eqn:Hk; [|discriminate].
  injection Hsent as <-.
  rewrite (_make_request_run E self method endpoint data params key w Hk).
  cbn [fst]. now rewrite Hrep.
Qed.

(** C2, as the code has it.  For the response [r] to the call of a request
    operation: status 401 raises AuthenticationError ("Invalid credentials"),
    and no other status raises an AuthenticationError; status 402 raises the
    generic error AccessGridError with the fixed message "Insufficient account
    balance"; any other status outside 200..299 whose body is empty, or is
    decoded by [response.json()] to a mapping, raises AccessGridError with the
    message "API request failed: " followed by the mapping's "message" value
    when it has one (a string as it is), and by the raw response text
    otherwise. *)
Theorem status_classification E self method endpoint data params w req r :
  sent_by (AccessGrid._make_request E self method endpoint data params) w = [req] ->
  transport E w req = Responded r ->
  (Response.status_code r = 401%Z ->
   result_of (AccessGrid._make_request E self method endpoint data params) w
   = Raises (AuthenticationError (lit "Invalid credentials")))
  /\ (Response.status_code r <> 401%Z ->
      forall msg,
        result_of (AccessGrid._make_request E self method endpoint data params) w
        <> Raises (AuthenticationError msg))
  /\ (Response.status_code r = 402%Z ->
      result_of (AccessGrid._make_request E self method endpoint data params) w
      = Raises (AccessGridError (lit "Insufficient account balance")))
  /\ (Response.status_code r <> 401%Z ->
      Response.status_code r <> 402%Z ->
      ~ (200 <= Response.status_code r < 300)%Z ->
      (Response.text r = [] ->
       result_of (AccessGrid._make_request E self method endpoint data params) w
       = Raises (AccessGridError (lit "API request failed: " ++ Response.text r)))
      /\ (forall d,
             Response.text r <> [] ->
             Response.json r = inl (PDict d) ->
             (forall s,
                 assoc (lit "message") d = Some (PStr s) ->
                 result_of (AccessGrid._make_request E self method endpoint data params) w
                 = Raises (AccessGridError (lit "API request failed: " ++ s)))
             /\ (forall v,
                    assoc (lit "message") d = Some v ->
                    result_of (AccessGrid._make_request E self method endpoint data params) w
                    = Raises (AccessGridError
                                (lit "API request failed: " ++ AccessGrid.py_str E v)))
             /\ (assoc (lit "message") d = None ->
                 result_of (AccessGrid._make_request E self method endpoint data params) w
                 = Raises (AccessGridError
                             (lit "API request failed: " ++ Response.text r))))).
Proof.
  intros Hsent Hrep.
  rewrite (result_of_response E self method endpoint data params w req r Hsent Hrep).
  cbn [settle].
  split; [intros ->; reflexivity|].
  split.
  { intros H msg.
    destruct (Z.eqb_spec (Response.status_code r) 401); [contradiction|].
    destruct (Response.status_code r =? 402)%Z; [discriminate|].
    unfold json_failure.
    destruct (negb _).
    - destruct (Response.text r); [discriminate|].
      destruct (Response.json r) as [[]|]; try discriminate.
      destruct (json_error_is_request_exception E); discriminate.
    - destruct (Response.json r); [discriminate|].
      destruct (json_error_is_request_exception E); discriminate. }
  split; [intros ->; reflexivity|].
  intros H1 H2 H3.
  destruct (Z.eqb_spec (Response.status_code r) 401); [contradiction|].
  destruct (Z.eqb_spec (Response.status_code r) 402); [contradiction|].
  replace ((200 <=? Response.status_code r)%Z && (Response.status_code r <? 300)%Z)
    with false
    by (destruct (Z.leb_spec 200 (Response.status_code r));
        destruct (Z.ltb_spec (Response.status_code r) 300); cbn [andb]; lia).
  cbn [negb].
  split.
  { intros Ht. rewrite Ht. now rewrite app_nil_r. }
  intros d Ht Hj.
  destruct (Response.text r) as [|c t]; [contradiction|].
  rewrite Hj. unfold get.
  split; [|split].
  - intros s Hs. now rewrite Hs.
  - intros v Hv. now rewrite Hv.
  - intros Hn. now rewrite Hn.
Qed.

Lemma status_classification_witness :
  sent_by (AccessGrid._make_request
             (Sample.env true
                (Sample.json_response 500 (PDict [(lit "message", PStr (lit "boom"))])))
             Sample.client (lit "GET") (lit "/v1/console/card-templates/t_1")
             None None) []
  = [request_of
       (Sample.env true
          (Sample.json_response 500 (PDict [(lit "message", PStr (lit "boom"))])))
       Sample.client (ReadTemplate (lit "t_1")) (list_byte_of_string "s3cret")]
  /\ result_of (AccessGrid._make_request
                  (Sample.env true
                     (Sample.json_response 500
                        (PDict [(lit "message", PStr (lit "boom"))])))
                  Sample.client (lit "GET") (lit "/v1/console/card-templates/t_1")
                  None None) []
     = Raises (AccessGridError (lit "API request failed: boom")).
Proof.
  split; [vm_compute; reflexivity|].
  refine (proj1 (proj2 (proj2 (proj2 (proj2
    (status_classification
       (Sample.env true
          (Sample.json_response 500 (PDict [(lit "message", PStr (lit "boom"))])))
       Sample.client (lit "GET") (lit "/v1/console/card-templates/t_1") None None []
       (request_of
          (Sample.env true
             (Sample.json_response 500 (PDict [(lit "message", PStr (lit "boom"))])))
          Sample.client (ReadTemplate (lit "t_1")) (list_byte_of_string "s3cret"))
       (Sample.json_response 500 (PDict [(lit "message", PStr (lit "boom"))]))
       _ _))) _ _ _)
    [(lit "message", PStr (lit "boom"))] _ _) (lit "boom") _).
  - vm_compute; reflexivity.
  - reflexivity.
  - discriminate.
  - discriminate.
  - cbn. lia.
  - vm_compute. discriminate.
  - reflexivity.
  - reflexivity.
Defined.

(** C2, as stated, fails on the messages: the 402 message is not the
    specification's text, and the message of another error status is not the
    body's "message" value itself. *)
Lemma status_messages_differ :
  result_of (AccessGrid._make_request
               (Sample.env true (Sample.json_response 402 (PDict [])))
               Sample.client (lit "GET") (lit "/v1/console/card-templates/t_1")
               None None) []
  = Raises (AccessGridError (lit "Insufficient account balance"))
  /\ lit "Insufficient account balance" <> lit "insufficient account balance"
  /\ result_of (AccessGrid._make_request
                  (Sample.env true
                     (Sample.json_response 500
                        (PDict [(lit "message", PStr (lit "boom"))])))
                  Sample.client (lit "GET") (lit "/v1/console/card-templates/t_1")
                  None None) []
     = Raises (AccessGridError (lit "API request failed: boom"))
  /\ lit "API request failed: boom" <> lit "boom".
Proof.
  split; [vm_compute; reflexivity|].
  split; [discriminate|].
  split; [vm_compute; reflexivity|discriminate].
Qed.

(** C8, on the code.  For a response with a status in 200..299, the result of
    the operation is what [response.json()] gives: the decoded body when
    there is one; when decoding fails, as it does on an empty body, the
    decoding error is raised (wrapped in AccessGridError "Request failed: ..."
    when it is a RequestException), and nothing is returned: no empty
    mapping stands in for an empty body. *)
Theorem success_body_is_decoded_or_raises E self method endpoint data params w req r :
  sent_by (AccessGrid._make_request E self method endpoint data params) w = [req] ->
  transport E w req = Responded r ->
  (200 <= Response.status_code r < 300)%Z ->
  (forall v,
      Response.json r = inl v ->
      result_of (AccessGrid._make_request E self method endpoint data params) w
      = Returns v)
  /\ (forall d,
         Response.json r = inr d ->
         result_of (AccessGrid._make_request E self method endpoint data params) w
         = (if json_error_is_request_exception E
            then Raises (AccessGridError (lit "Request failed: " ++ d))
            else Raises (JSONDecodeError d))
         /\ forall v,
             result_of (AccessGrid._make_request E self method endpoint data params) w
             <> Returns v)
  /\ (Response.text r = [] ->
      well_formed r ->
      forall v,
        result_of (AccessGrid._make_request E self method endpoint data params) w
        <> Returns v).
Proof.
  intros Hsent Hrep Hs.
  rewrite (result_of_response E self method endpoint data params w req r Hsent Hrep).
  cbn [settle].
  destruct (Z.eqb_spec (Response.status_code r) 401); [lia|].
  destruct (Z.eqb_spec (Response.status_code r) 402); [lia|].
  replace ((200 <=? Response.status_code r)%Z && (Response.status_code r <? 300)%Z)
    with true
    by (destruct (Z.leb_spec 200 (Response.status_code r));
        destruct (Z.ltb_spec (Response.status_code r) 300); cbn [andb]; lia).
  cbn [negb]. split; [|split].
  - intros v ->. reflexivity.
  - intros d ->. unfold json_failure.
    destruct (json_error_is_request_exception E); split; try reflexivity;
      discriminate.
  - intros Ht Hwf v. destruct (Hwf Ht) as [d ->]. unfold json_failure.
    destruct (json_error_is_request_exception E); discriminate.
Qed.

Lemma success_body_is_decoded_or_raises_witness :
  sent_by (AccessGrid._make_request
             (Sample.env true (Sample.text_response 204 []))
             Sample.client (lit "GET") (lit "/v1/console/card-templates/t_1")
             None None) []
  = [request_of (Sample.env true (Sample.text_response 204 []))
       Sample.client (ReadTemplate (lit "t_1")) (list_byte_of_string "s3cret")]
  /\ Response.text (Sample.text_response 204 []) = []
  /\ result_of (AccessGrid._make_request
                  (Sample.env true (Sample.text_response 204 []))
                  Sample.client (lit "GET") (lit "/v1/console/card-templates/t_1")
                  None None) []
     = Raises (AccessGridError
                 (lit "Request failed: Expecting value: line 1 column 1 (char 0)")).
Proof.
  split; [vm_compute; reflexivity|]. split; [reflexivity|].
  refine (proj1 (proj1 (proj2
    (success_body_is_decoded_or_raises
       (Sample.env true (Sample.text_response 204 []))
       Sample.client (lit "GET") (lit "/v1/console/card-templates/t_1") None None []
       (request_of (Sample.env true (Sample.text_response 204 []))
          Sample.client (ReadTemplate (lit "t_1")) (list_byte_of_string "s3cret"))
       (Sample.text_response 204 []) _ _ _))
    (lit "Expecting value: line 1 column 1 (char 0)") _)).
  - vm_compute; reflexivity.
  - reflexivity.
  - cbn. lia.
  - reflexivity.
Defined.

(* ================================================================= *)
(** * Card state transitions *)

(** C4, as the code has it.  [suspend], [resume] and [unlink] each make one
    call (none when the secret key has no UTF-8 encoding: the signature then
    fails first): a POST to /v1/key-cards/{card_id}/{action} with the action's
    own name and no body.  [manage] does the same for every action string: it
    checks nothing and rejects nothing. *)
Theorem manage_posts_any_action E self card_id action w :
  sent_by (AccessCards.manage E (access_cards self) card_id action) w
  = match encode (AccessGrid.secret_key self) with
    | Some key => [transition_request E self card_id action key]
    | None => []
    end
  /\ sent_by (AccessCards.suspend E (access_cards self) card_id) w
     = match encode (AccessGrid.secret_key self) with
       | Some key => [transition_request E self card_id (lit "suspend") key]
       | None => []
       end
  /\ sent_by (AccessCards.resume E (access_cards self) card_id) w
     = match encode (AccessGrid.secret_key self) with
       | Some key => [transition_request E self card_id (lit "resume") key]
       | None => []
       end
  /\ sent_by (AccessCards.unlink E (access_cards self) card_id) w
     = match encode (AccessGrid.secret_key self) with
       | Some key => [transition_request E self card_id (lit "unlink") key]
       | None => []
       end
  /\ match encode (AccessGrid.secret_key self) with
     | Some _ => True
     | None =>
         result_of (AccessCards.manage E (access_cards self) card_id action) w
         = Raises UnicodeError
     end.
Proof.
  rewrite (sent_by_card E self (Manage card_id action) _ w eq_refl).
  rewrite (sent_by_card E self (Suspend card_id) _ w eq_refl).
  rewrite (sent_by_card E self (Resume card_id) _ w eq_refl).
  rewrite (sent_by_card E self (Unlink card_id) _ w eq_refl).
  rewrite !sent_by_perform.
  destruct (encode (AccessGrid.secret_key self)) as [key|] eqn:Hk.
  - repeat split.
  - repeat split. unfold result_of, AccessCards.manage, AccessGrid._post.
    now rewrite (bind_fail _ _ _ _ _ (_make_request_bad_key E self _ _ _ _ w Hk)).
Qed.

(** C4, as stated, fails: [manage] with the action "delete", which is none
    of suspend, resume and unlink, is not rejected; the POST is made and the
    card of the response returned. *)
Lemma manage_sends_unknown_action :
  lit "delete" <> lit "suspend"
  /\ lit "delete" <> lit "resume"
  /\ lit "delete" <> lit "unlink"
  /\ map (fun req => (Request.method req, Request.url req))
       (sent_by (AccessCards.manage
                   (Sample.env true (Sample.json_response 200 Sample.card))
                   (access_cards Sample.client) (lit "key_1") (lit "delete")) [])
     = [(lit "POST", lit "https://api.accessgrid.com/v1/key-cards/key_1/delete")]
  /\ result_of (AccessCards.manage
                  (Sample.env true (Sample.json_response 200 Sample.card))
                  (access_cards Sample.client) (lit "key_1") (lit "delete")) []
     = Returns
         (AccessCard.Make Sample.client (PStr (lit "key_1")) PNone
            (PStr (lit "active")) PNone PNone).
Proof.
  repeat split; try discriminate; vm_compute; reflexivity.
Qed.

(* ================================================================= *)
(** * The whole run of an operation *)

Lemma wrap_run (self : AccessGrid.t) (op : call) (v : value) (w : log) :
  wrap self op v w = (built self op v, w).
Proof. destruct op; destruct v; reflexivity. Qed.

(** An operation, run: one call, its reply settled, the decoded response
    wrapped. *)
Lemma perform_run (E : Env) (self : AccessGrid.t) (op : call) (key : bytes) (w : log) :
  encode (AccessGrid.secret_key self) = Some key ->
  perform E self op w
  = (match settle E (transport E w (request_of E self op key)) with
     | Returns v => built self op v
     | Raises e => Raises e
     end,
     w ++ [request_of E self op key]).
Proof.
  intros Hk. rewrite perform_unfold. unfold bind.
  rewrite (_make_request_run E self _ _ _ _ key w Hk).
  fold (request_of E self op key).
  destruct (settle E (transport E w (request_of E self op key))) as [v|e];
    [apply wrap_run|reflexivity].
Qed.

Lemma perform_bad_key (E : Env) (self : AccessGrid.t) (op : call) (w : log) :
  encode (AccessGrid.secret_key self) = None ->
  perform E self op w = (Raises UnicodeError, w).
Proof.
  intros Hk. rewrite perform_unfold. unfold bind.
  now rewrite (_make_request_bad_key E self _ _ _ _ w Hk).
Qed.



Lemma session_run (E : Env) (self : AccessGrid.t) (key : bytes) (ops : list call)
    (w : log) :
  encode (AccessGrid.secret_key self) = Some key ->
  snd (session E self ops w) = w ++ map (fun op => request_of E self op key) ops
  /\ length (fst (session E self ops w)) = length ops.
Proof.
  intros Hk. revert w. induction ops as [|op rest IH]; intros w.
  - cbn. now rewrite app_nil_r.
  - cbn [session]. rewrite (perform_run E self op key w Hk).
    destruct (IH (w ++ [request_of E self op key])) as [Hlog Hlen].
    destruct (session E self rest (w ++ [request_of E self op key])) as [os w2].
    cbn [fst snd length map] in *. rewrite Hlog, <- app_assoc. now rewrite Hlen.
Qed.

(** X2.  A series of operations whose fields [json.dumps] serialises,
    made through one client, makes exactly one call per operation, in the
    order of the operations, whatever the service answers: no operation is
    retried, none is skipped after an error, and each request is the one its
    operation makes on its own.  With a secret key that has no UTF-8 encoding
    no call is made at all, and each of them raises UnicodeError. *)
Theorem session_makes_one_call_each :
  (forall E self key ops w,
      encode (AccessGrid.secret_key self) = Some key ->
      Forall (fun op => serialises (data_of op) = true) ops ->
      snd (session E self ops w) = w ++ map (fun op => request_of E self op key) ops
      /\ length (fst (session E self ops w)) = length ops)
  /\
  (forall E self ops w,
      encode (AccessGrid.secret_key self) = None ->
      Forall (fun op => serialises (data_of op) = true) ops ->
      snd (session E self ops w) = w
      /\ fst (session E self ops w) = map (fun _ => Raises UnicodeError) ops).
Proof.
  split.
  - intros E self key ops w Hk _. now apply session_run.
  - intros E self ops w Hk _. revert w. induction ops as [|op rest IH]; intros w.
    + now cbn.
    + cbn [session]. rewrite (perform_bad_key E self op w Hk).
      destruct (IH w) as [Hlog Hres].
      destruct (session E self rest w) as [os w2]. cbn [fst snd map] in *.
      now subst.
Qed.

Lemma session_makes_one_call_each_witness :
  Forall (fun op => serialises (data_of op) = true)
    [Update (lit "key_1") Sample.jane_doe; ReadTemplate (lit "t_1")]
  /\ snd (session (offline (lit "Connection refused")) Sample.client
            [Update (lit "key_1") Sample.jane_doe; ReadTemplate (lit "t_1")] [])
     = [] ++ map (fun op => request_of (offline (lit "Connection refused"))
                              Sample.client op (list_byte_of_string "s3cret"))
               [Update (lit "key_1") Sample.jane_doe; ReadTemplate (lit "t_1")]
  /\ length (fst (session (offline (lit "Connection refused")) Sample.client
                    [Update (lit "key_1") Sample.jane_doe; ReadTemplate (lit "t_1")] []))
     = length [Update (lit "key_1") Sample.jane_doe; ReadTemplate (lit "t_1")].
Proof.
  assert (Hs : Forall (fun op => serialises (data_of op) = true)
                 [Update (lit "key_1") Sample.jane_doe; ReadTemplate (lit "t_1")])
    by (repeat constructor; vm_compute; reflexivity).
  split; [exact Hs|].
  apply (proj1 session_makes_one_call_each (offline (lit "Connection refused"))
           Sample.client (list_byte_of_string "s3cret")
           [Update (lit "key_1") Sample.jane_doe; ReadTemplate (lit "t_1")] []);
    [vm_compute; reflexivity|exact Hs].
Defined.

Lemma settle_returns (E : Env) (rep : reply) (v : value) :
  settle E rep = Returns v ->
  exists r,
    rep = Responded r /\ success (Response.status_code r) /\ Response.json r = inl v.
Proof.
  destruct rep as [r|d]; cbn [settle]; [|discriminate].
  destruct (Response.status_code r =? 401)%Z; [discriminate|].
  destruct (Response.status_code r =? 402)%Z; [discriminate|].
  destruct (Z.leb_spec 200 (Response.status_code r));
    destruct (Z.ltb_spec (Response.status_code r) 300); cbn [andb negb].
  - destruct (Response.json r) as [v'|d] eqn:Hj.
    + intros [= ->]. exists r. unfold success.
      repeat split; try lia; try reflexivity; assumption.
    + unfold json_failure.
      destruct (json_error_is_request_exception E); discriminate.
  - unfold json_failure. destruct (Response.text r); [discriminate|].
    destruct (Response.json r) as [[]|]; try discriminate.
    destruct (json_error_is_request_exception E); discriminate.
  - unfold json_failure. destruct (Response.text r); [discriminate|].
    destruct (Response.json r) as [[]|]; try discriminate.
    destruct (json_error_is_request_exception E); discriminate.
  - lia.
Qed.






(** X3.  An operation returns only on a response with a status in 200..299
    whose body [response.json()] decodes: whenever an operation returns a
    result, it made its one call, the service answered it with such a
    response, and the result is what the operation builds from the decoded
    body.  No other status, and no failure of the transport, yields a
    result. *)
Theorem returns_only_on_success E self op w res :
  result_of (perform E self op) w = Returns res ->
  exists key r v,
    encode (AccessGrid.secret_key self) = Some key
    /\ snd (perform E self op w) = w ++ [request_of E self op key]
    /\ transport E w (request_of E self op key) = Responded r
    /\ success (Response.status_code r)
    /\ Response.json r = inl v
    /\ built self op v = Returns res.
Proof.
  unfold result_of.
  destruct (encode (AccessGrid.secret_key self)) as [key|] eqn:Hk.
  - rewrite (perform_run E self op key w Hk). cbn [fst snd].
    destruct (settle E (transport E w (request_of E self op key))) as [v|e] eqn:Hs;
      [|discriminate].
    intros Hb. destruct (settle_returns E _ v Hs) as [r [Hr [Hok Hj]]].
    exists key, r, v. repeat split; try assumption; apply Hok.
  - rewrite (perform_bad_key E self op w Hk). discriminate.
Qed.

Lemma returns_only_on_success_witness :
  result_of (perform (Sample.env true (Sample.json_response 201 Sample.card))
               Sample.client (Issue Sample.jane_doe)) []
  = Returns (Card (card_of Sample.client
                     [(lit "id", PStr (lit "key_1")); (lit "state", PStr (lit "active"))]))
  /\ exists key r v,
      encode (AccessGrid.secret_key Sample.client) = Some key
      /\ snd (perform (Sample.env true (Sample.json_response 201 Sample.card))
                Sample.client (Issue Sample.jane_doe) [])
         = [] ++ [request_of (Sample.env true (Sample.json_response 201 Sample.card))
                    Sample.client (Issue Sample.jane_doe) key]
      /\ transport (Sample.env true (Sample.json_response 201 Sample.card)) []
           (request_of (Sample.env true (Sample.json_response 201 Sample.card))
              Sample.client (Issue Sample.jane_doe) key)
         = Responded r
      /\ success (Response.status_code r)
      /\ Response.json r = inl v
      /\ built Sample.client (Issue Sample.jane_doe) v
         = Returns (Card (card_of Sample.client
                            [(lit "id", PStr (lit "key_1"));
                             (lit "state", PStr (lit "active"))])).
Proof.
  split; [vm_compute; reflexivity|].
  apply (returns_only_on_success
           (Sample.env true (Sample.json_response 201 Sample.card))
           Sample.client (Issue Sample.jane_doe) []
           (Card (card_of Sample.client
                    [(lit "id", PStr (lit "key_1")); (lit "state", PStr (lit "active"))]))).
  vm_compute; reflexivity.
Defined.








(* ================================================================= *)
(** * The shape of the signature *)

Lemma length_flat_map_const {A B} (f : A -> list B) (k : nat) (l : list A) :
  (forall x, length (f x) = k) -> length (flat_map f l) = (k * length l)%nat.
Proof.
  intros Hf. induction l as [|x l IH]; cbn [flat_map length]; [lia|].
  rewrite length_app, Hf, IH. lia.
Qed.

Lemma compress_length (h : list N) (block : bytes) :
  length h = 8%nat -> length (SHA256.compress h block) = 8%nat.
Proof.
  intros Hh. unfold SHA256.compress. cbv zeta.
  rewrite length_map, length_combine, Hh. reflexivity.
Qed.

Lemma blocks_length (fuel : nat) (h : list N) (bs : bytes) :
  length h = 8%nat -> length (SHA256.blocks fuel h bs) = 8%nat.
Proof.
  revert h bs. induction fuel as [|fuel IH]; intros h bs Hh; cbn [SHA256.blocks];
    [exact Hh|].
  destruct bs; [exact Hh|]. apply IH. now apply compress_length.
Qed.

(** A SHA-256 digest is 32 octets, and so is the HMAC. *)
Lemma sha256_length (msg : bytes) : length (SHA256.sha256 msg) = 32%nat.
Proof.
  unfold SHA256.sha256. cbv zeta.
  rewrite (length_flat_map_const (SHA256.be_bytes 4) 4) by reflexivity.
  now rewrite blocks_length.
Qed.

Lemma hex_length (bs : bytes) : length (hex bs) = (2 * length bs)%nat.
Proof. unfold hex. now apply length_flat_map_const. Qed.

Lemma signature_length (key raw : bytes) : length (signature key raw) = 64%nat.
Proof.
  unfold signature, HMAC.hmac_sha256. cbv zeta.
  now rewrite hex_length, sha256_length.
Qed.

(** ** Which strings have a UTF-8 encoding *)

Lemma utf8_encode_cp_none (c : codepoint) :
  (c < 0x110000)%N -> (utf8_encode_cp c = None <-> is_surrogate c = true).
Proof.
  intros Hc. unfold utf8_encode_cp, is_surrogate.
  destruct (N.ltb_spec c 0x80) as [Hlt|Hge].
  { split; [discriminate|]. intros Hx. apply andb_true_iff in Hx as [Hx _].
    apply N.leb_le in Hx. lia. }
  destruct (N.ltb_spec c 0x800) as [Hlt|Hge'].
  { split; [discriminate|]. intros Hx. apply andb_true_iff in Hx as [Hx _].
    apply N.leb_le in Hx. lia. }
  destruct ((0xD800 <=? c) && (c <=? 0xDFFF))%N; [now split|].
  destruct (N.ltb_spec c 0x10000); [split; discriminate|].
  destruct (N.ltb_spec c 0x110000); [split; discriminate|lia].
Qed.

Lemma encode_none (s : str) :
  python_str s -> (encode s = None <-> has_surrogate s = true).
Proof.
  induction 1 as [|c s Hc Hs IH]; cbn [encode has_surrogate existsb].
  - split; discriminate.
  - fold (has_surrogate s). pose proof (utf8_encode_cp_none c Hc) as Hcp.
    destruct (utf8_encode_cp c) as [b|].
    + destruct (is_surrogate c).
      * destruct Hcp as [_ Hcp]. now specialize (Hcp eq_refl).
      * cbn [orb]. destruct (encode s); [split; [discriminate|]|tauto].
        intros H. apply IH in H. discriminate.
    + destruct Hcp as [Hcp _]. rewrite (Hcp eq_refl). now split.
Qed.

Lemma encode_some (s : str) :
  python_str s -> has_surrogate s = false -> exists b, encode s = Some b.
Proof.
  intros Hs Hn. destruct (encode s) as [b|] eqn:He; [now exists b|].
  apply (encode_none s Hs) in He. congruence.
Qed.

(** X8.  [_generate_signature] on Python strings: it raises UnicodeError
    exactly when the payload or the secret key holds a surrogate code point
    (U+D800..U+DFFF), and otherwise returns a string of exactly 64 lowercase
    hexadecimal digits, the HMAC of the base64 text under the key; it never
    touches the log. *)
Theorem signature_result self payload w :
  python_str payload ->
  python_str (AccessGrid.secret_key self) ->
  (has_surrogate payload || has_surrogate (AccessGrid.secret_key self) = true ->
   AccessGrid._generate_signature self payload w = (Raises UnicodeError, w))
  /\ (has_surrogate payload || has_surrogate (AccessGrid.secret_key self) = false ->
      exists key raw sig,
        encode (AccessGrid.secret_key self) = Some key
        /\ encode payload = Some raw
        /\ AccessGrid._generate_signature self payload w = (Returns sig, w)
        /\ sig = hex (HMAC.hmac_sha256 key (b64encode raw))
        /\ length sig = 64%nat
        /\ forallb is_lower_hex sig = true).
Proof.
  intros Hp Hs. split.
  - intros H. apply orb_true_iff in H.
    destruct (encode payload) as [raw|] eqn:Her.
    + destruct H as [H|H]; [apply (encode_none _ Hp) in H; congruence|].
      apply (encode_none _ Hs) in H.
      exact (_generate_signature_bad_key self payload raw w Her H).
    + unfold AccessGrid._generate_signature. now rewrite Her.
  - intros H. apply orb_false_iff in H as [H1 H2].
    destruct (encode_some _ Hp H1) as [raw Hr].
    destruct (encode_some _ Hs H2) as [key Hk].
    exists key, raw, (signature key raw).
    split; [exact Hk|]. split; [exact Hr|].
    split; [exact (_generate_signature_run self payload key raw w Hr Hk)|].
    split; [reflexivity|]. split; [apply signature_length|apply hex_lower].
Qed.

Lemma signature_result_witness :
  python_str (lit "{}")
  /\ python_str (AccessGrid.secret_key Sample.client)
  /\ exists key raw sig,
      encode (AccessGrid.secret_key Sample.client) = Some key
      /\ encode (lit "{}") = Some raw
      /\ AccessGrid._generate_signature Sample.client (lit "{}") [] = (Returns sig, [])
      /\ sig = hex (HMAC.hmac_sha256 key (b64encode raw))
      /\ length sig = 64%nat
      /\ forallb is_lower_hex sig = true.
Proof.
  assert (H1 : python_str (lit "{}")) by (repeat constructor).
  assert (H2 : python_str (AccessGrid.secret_key Sample.client))
    by (repeat constructor).
  split; [exact H1|]. split; [exact H2|].
  apply (proj2 (signature_result Sample.client (lit "{}") [] H1 H2)).
  reflexivity.
Defined.

(** X9.  The strings in the fields of an operation never make signing
    fail: whatever they hold, surrogates included, the payload that is signed
    is ASCII text ([json.dumps] escapes the rest).  So for fields that
    [json.dumps] serialises, an operation of a client whose secret key is free
    of surrogates makes its one call, and an operation of a client whose
    secret key holds a surrogate raises UnicodeError before any call. *)
Theorem only_the_secret_can_stop_a_call E self op w :
  python_str (AccessGrid.secret_key self) ->
  serialises (data_of op) = true ->
  is_ascii (payload_of (data_of op)) = true
  /\ (has_surrogate (AccessGrid.secret_key self) = false ->
      exists key,
        encode (AccessGrid.secret_key self) = Some key
        /\ snd (perform E self op w) = w ++ [request_of E self op key])
  /\ (has_surrogate (AccessGrid.secret_key self) = true ->
      perform E self op w = (Raises UnicodeError, w)).
Proof.
  intros Hs _. split; [apply payload_ascii|]. split.
  - intros Hn. destruct (encode_some _ Hs Hn) as [key Hk]. exists key.
    split; [exact Hk|]. now rewrite (perform_run E self op key w Hk).
  - intros Hy. apply (encode_none _ Hs) in Hy.
    exact (perform_bad_key E self op w Hy).
Qed.

Lemma only_the_secret_can_stop_a_call_witness :
  python_str (AccessGrid.secret_key Sample.client)
  /\ serialises (data_of (Issue [(lit "full_name", PStr [0xD83D]%N)])) = true
  /\ exists key,
      encode (AccessGrid.secret_key Sample.client) = Some key
      /\ snd (perform (Sample.env true (Sample.json_response 200 Sample.card))
                Sample.client (Issue [(lit "full_name", PStr [0xD83D]%N)]) [])
         = [] ++ [request_of (Sample.env true (Sample.json_response 200 Sample.card))
                    Sample.client (Issue [(lit "full_name", PStr [0xD83D]%N)]) key].
Proof.
  assert (H : python_str (AccessGrid.secret_key Sample.client))
    by (repeat constructor).
  assert (Hd : serialises (data_of (Issue [(lit "full_name", PStr [0xD83D]%N)])) = true)
    by (vm_compute; reflexivity).
  split; [exact H|]. split; [exact Hd|].
  apply (proj1 (proj2 (only_the_secret_can_stop_a_call
                         (Sample.env true (Sample.json_response 200 Sample.card))
                         Sample.client (Issue [(lit "full_name", PStr [0xD83D]%N)])
                         [] H Hd))).
  reflexivity.
Defined.

(* ================================================================= *)
(** * The base URL *)

Lemma rstrip_repeat (ch : codepoint) (n : nat) : rstrip ch (repeat ch n) = [].
Proof.
  induction n as [|n IH]; cbn [repeat rstrip]; [reflexivity|].
  now rewrite IH, N.eqb_refl.
Qed.

Lemma rstrip_fixed (ch : codepoint) (s : str) :
  ~ ends_with ch s -> rstrip ch s = s.
Proof.
  intros H. destruct (rstrip_suffix ch s) as [[|n] Hn].
  - cbn in Hn. now rewrite app_nil_r in Hn.
  - exfalso. apply H. exists (rstrip ch s ++ repeat ch n).
    rewrite Hn at 1. cbn [repeat]. rewrite repeat_cons. now rewrite app_assoc.
Qed.

(** X10.  How the constructor normalises the base URL: a base URL without a
    trailing slash is stored as given; normalising is idempotent, so the base
    URL of a client builds the same client again; and the base URL is not
    checked otherwise: one made of slashes only is stored as the empty
    string, and every request of such a client goes to the bare endpoint
    path. *)
Theorem base_url_normalisation account_id secret_key b w self :
  AccessGrid.__init__ account_id secret_key (Some b) w = (Returns self, w) ->
  AccessGrid.__init__ account_id secret_key (Some (AccessGrid.base_url self)) w
  = (Returns self, w)
  /\ (~ ends_with AccessGrid.slash b -> AccessGrid.base_url self = b)
  /\ ((exists n, b = repeat AccessGrid.slash n) ->
      AccessGrid.base_url self = []
      /\ forall E op key, Request.url (request_of E self op key) = endpoint_of op).
Proof.
  unfold AccessGrid.__init__.
  destruct (AccessGrid.falsy account_id); [discriminate|].
  destruct (AccessGrid.falsy secret_key); [discriminate|].
  intros [= <-]. cbn [AccessGrid.base_url].
  split; [|split].
  - now rewrite (rstrip_fixed _ _ (rstrip_clean AccessGrid.slash b)).
  - apply rstrip_fixed.
  - intros [n ->]. rewrite rstrip_repeat. split; [reflexivity|].
    intros E op key. reflexivity.
Qed.

Lemma base_url_normalisation_witness :
  AccessGrid.__init__ (Some (lit "acct_1")) (Some (lit "s3cret"))
    (Some (lit "https://staging.accessgrid.com/api//")) []
  = (Returns (AccessGrid.Make (lit "acct_1") (lit "s3cret")
                (lit "https://staging.accessgrid.com/api")), [])
  /\ AccessGrid.__init__ (Some (lit "acct_1")) (Some (lit "s3cret"))
       (Some (lit "https://staging.accessgrid.com/api")) []
     = (Returns (AccessGrid.Make (lit "acct_1") (lit "s3cret")
                   (lit "https://staging.accessgrid.com/api")), []).
Proof.
  split; [vm_compute; reflexivity|].
  apply (proj1 (base_url_normalisation (Some (lit "acct_1")) (Some (lit "s3cret"))
                  (lit "https://staging.accessgrid.com/api//") []
                  (AccessGrid.Make (lit "acct_1") (lit "s3cret")
                     (lit "https://staging.accessgrid.com/api")) eq_refl)).
Defined.

(* ================================================================= *)
(** * The shape of the requests *)

(** X11.  Every request of every operation has the method GET, POST or PUT
    (PATCH, which [_patch] would send, is used by no operation); carries the
    four headers X-ACCT-ID, X-PAYLOAD-SIG, Content-Type and User-Agent, in
    that order, with the account id, "application/json" (also on a request
    without a body) and "accessgrid.py @ v" followed by the version; has no
    body when it is a GET, and never an empty mapping for a body; and has
    query parameters only when it is the GET of [get_logs]. *)
Theorem request_shape E self op w :
  Forall
    (fun req =>
       (Request.method req = lit "GET" \/ Request.method req = lit "POST"
        \/ Request.method req = lit "PUT")
       /\ (exists sig,
              Request.headers req
              = [(lit "X-ACCT-ID", AccessGrid.account_id self);
                 (lit "X-PAYLOAD-SIG", sig);
                 (lit "Content-Type", lit "application/json");
                 (lit "User-Agent", lit "accessgrid.py @ v" ++ version E)])
       /\ (Request.method req = lit "GET" -> Request.json req = None)
       /\ Request.json req <> Some []
       /\ (Request.params req <> None ->
           Request.method req = lit "GET"
           /\ exists template_id,
               Request.url req
               = AccessGrid.base_url self ++ lit "/v1/console/card-templates/"
                 ++ template_id ++ lit "/logs"))
    (sent_by (perform E self op) w).
Proof.
  rewrite sent_by_perform.
  destruct (encode (AccessGrid.secret_key self)) as [key|]; constructor;
    [|constructor].
  unfold request_of, prepared.
  cbn [Request.method Request.headers Request.json Request.params Request.url].
  split; [destruct op; cbn; auto|].
  split; [eexists; reflexivity|].
  split; [destruct op; cbn [method_of data_of]; try discriminate; reflexivity|].
  split.
  - unfold body_of. destruct op; cbn [data_of]; try discriminate;
      destruct kwargs; discriminate.
  - destruct op; cbn [params_of method_of endpoint_of]; try congruence.
    intros _. split; [reflexivity|]. now exists template_id.
Qed.

(** X12.  The signature covers the body and nothing else: two operations
    through one client whose requests have the same body carry the same
    signature, whatever their methods, paths and query parameters.  So all
    requests without a body (every GET, and suspend, resume and unlink of
    every card) are signed alike. *)
Theorem signature_ignores_target E1 E2 self op1 op2 w1 w2 :
  body_of (data_of op1) = body_of (data_of op2) ->
  map (header (lit "X-PAYLOAD-SIG")) (sent_by (perform E1 self op1) w1)
  = map (header (lit "X-PAYLOAD-SIG")) (sent_by (perform E2 self op2) w2).
Proof.
  intros H. rewrite !sent_by_perform.
  destruct (encode (AccessGrid.secret_key self)) as [key|]; [|reflexivity].
  cbn [map]. unfold request_of. rewrite !header_signature.
  now rewrite <- !body_text_body_of, H.
Qed.

Lemma signature_ignores_target_witness :
  body_of (data_of (Suspend (lit "key_1")))
  = body_of (data_of (GetLogs (lit "t_9") [(lit "page", PInt 2)]))
  /\ map (header (lit "X-PAYLOAD-SIG"))
       (sent_by (perform (Sample.env true (Sample.json_response 200 Sample.card))
                   Sample.client (Suspend (lit "key_1"))) [])
     = map (header (lit "X-PAYLOAD-SIG"))
         (sent_by (perform (offline (lit "Connection refused")) Sample.client
                     (GetLogs (lit "t_9") [(lit "page", PInt 2)])) []).
Proof.
  split; [reflexivity|].
  apply (signature_ignores_target
           (Sample.env true (Sample.json_response 200 Sample.card))
           (offline (lit "Connection refused")) Sample.client
           (Suspend (lit "key_1")) (GetLogs (lit "t_9") [(lit "page", PInt 2)]) [] []).
  reflexivity.
Defined.

(* ================================================================= *)
(** * What the entities read *)

Lemma str_eqb_eq (a b : str) : str_eqb a b = true <-> a = b.
Proof.
  revert b. induction a as [|x a IH]; intros [|y b]; cbn [str_eqb];
    try (split; [discriminate|discriminate]); [now split|].
  rewrite andb_true_iff, N.eqb_eq, IH. split.
  - now intros [-> ->].
  - now intros [= -> ->].
Qed.

Lemma get_skip (d : dict) (k k' : str) (v : value) :
  k <> k' -> get ((k', v) :: d) k PNone = get d k PNone.
Proof.
  intros H. unfold get. cbn [assoc].
  destruct (str_eqb k k') eqn:He; [|reflexivity].
  apply str_eqb_eq in He. contradiction.
Qed.

Lemma get_null (d : dict) (k k' : str) :
  assoc k' d = None -> get ((k', PNone) :: d) k PNone = get d k PNone.
Proof.
  intros H. unfold get. cbn [assoc].
  destruct (str_eqb k k') eqn:He; [|reflexivity].
  apply str_eqb_eq in He. subst. now rewrite H.
Qed.

Lemma card_init (client : AccessGrid.t) (d : dict) (w : log) :
  AccessCard.__init__ client (PDict d) w = (Returns (card_of client d), w).
Proof. reflexivity. Qed.

Lemma template_init (client : AccessGrid.t) (d : dict) (w : log) :
  Template.__init__ client (PDict d) w = (Returns (template_of client d), w).
Proof. reflexivity. Qed.

Lemma card_of_ext (client : AccessGrid.t) (d1 d2 : dict) :
  (forall k, In k card_keys -> get d1 k PNone = get d2 k PNone) ->
  card_of client d1 = card_of client d2.
Proof.
  intros H. unfold card_of.
  rewrite (H (lit "id")), (H (lit "install_url")), (H (lit "state")),
    (H (lit "full_name")), (H (lit "expiration_date"));
    try reflexivity; cbn [In card_keys]; auto 10.
Qed.

Lemma template_of_ext (client : AccessGrid.t) (d1 d2 : dict) :
  (forall k, In k template_keys -> get d1 k PNone = get d2 k PNone) ->
  template_of client d1 = template_of client d2.
Proof.
  intros H. unfold template_of.
  rewrite (H (lit "id")), (H (lit "name")), (H (lit "platform")),
    (H (lit "use_case")), (H (lit "protocol")), (H (lit "created_at")),
    (H (lit "last_published_at")), (H (lit "issued_keys_count")),
    (H (lit "active_keys_count")), (H (lit "allowed_device_counts")),
    (H (lit "support_settings")), (H (lit "terms_settings")),
    (H (lit "style_settings"));
    try reflexivity; cbn [In template_keys]; auto 20.
Qed.

(** X13.  An AccessCard depends on the response mapping only through the
    keys id, install_url, state, full_name and expiration_date: mappings that
    agree on them build the same card; an item under any other key (a "url"
    key, say: the url field is read from install_url) changes nothing; and
    a key that is present with the value null builds the same card as the
    key left out. *)
Theorem card_reads_only_its_keys client w :
  (forall d1 d2,
      (forall k, In k card_keys -> get d1 k PNone = get d2 k PNone) ->
      AccessCard.__init__ client (PDict d1) w = AccessCard.__init__ client (PDict d2) w)
  /\ (forall d k v,
         ~ In k card_keys ->
         AccessCard.__init__ client (PDict ((k, v) :: d)) w
         = AccessCard.__init__ client (PDict d) w)
  /\ (forall d k,
         assoc k d = None ->
         AccessCard.__init__ client (PDict ((k, PNone) :: d)) w
         = AccessCard.__init__ client (PDict d) w).
Proof.
  split; [|split].
  - intros d1 d2 H. rewrite !card_init. now rewrite (card_of_ext client d1 d2 H).
  - intros d k v Hk. rewrite !card_init. f_equal. f_equal.
    apply card_of_ext. intros k0 Hk0. apply get_skip. congruence.
  - intros d k Hk. rewrite !card_init. f_equal. f_equal.
    apply card_of_ext. intros k0 _. now apply get_null.
Qed.

Lemma card_reads_only_its_keys_witness :
  ~ In (lit "url") card_keys
  /\ AccessCard.__init__ Sample.client
       (PDict [(lit "url", PStr (lit "https://x")); (lit "id", PStr (lit "key_1"))]) []
     = AccessCard.__init__ Sample.client (PDict [(lit "id", PStr (lit "key_1"))]) [].
Proof.
  assert (H : ~ In (lit "url") card_keys).
  { cbn. intros [H|[H|[H|[H|[H|[]]]]]]; discriminate H. }
  split; [exact H|].
  apply (proj1 (proj2 (card_reads_only_its_keys Sample.client []))
           [(lit "id", PStr (lit "key_1"))] (lit "url") (PStr (lit "https://x")) H).
Defined.

(** X14.  A Template depends on the response mapping only through its
    thirteen documented keys: mappings that agree on them build the same
    template, an item under any other key changes nothing, and a key present
    with the value null builds the same template as the key left out. *)
Theorem template_reads_only_its_keys client w :
  (forall d1 d2,
      (forall k, In k template_keys -> get d1 k PNone = get d2 k PNone) ->
      Template.__init__ client (PDict d1) w = Template.__init__ client (PDict d2) w)
  /\ (forall d k v,
         ~ In k template_keys ->
         Template.__init__ client (PDict ((k, v) :: d)) w
         = Template.__init__ client (PDict d) w)
  /\ (forall d k,
         assoc k d = None ->
         Template.__init__ client (PDict ((k, PNone) :: d)) w
         = Template.__init__ client (PDict d) w).
Proof.
  split; [|split].
  - intros d1 d2 H. rewrite !template_init. now rewrite (template_of_ext client d1 d2 H).
  - intros d k v Hk. rewrite !template_init. f_equal. f_equal.
    apply template_of_ext. intros k0 Hk0. apply get_skip. congruence.
  - intros d k Hk. rewrite !template_init. f_equal. f_equal.
    apply template_of_ext. intros k0 _. now apply get_null.
Qed.

Lemma template_reads_only_its_keys_witness :
  assoc (lit "platform") [(lit "id", PStr (lit "t_1"))] = None
  /\ Template.__init__ Sample.client
       (PDict [(lit "platform", PNone); (lit "id", PStr (lit "t_1"))]) []
     = Template.__init__ Sample.client (PDict [(lit "id", PStr (lit "t_1"))]) [].
Proof.
  split; [reflexivity|].
  apply (proj2 (proj2 (template_reads_only_its_keys Sample.client []))
           [(lit "id", PStr (lit "t_1"))] (lit "platform")).
  reflexivity.
Defined.
